(** * Allocation endpoints of the agent's HTTP server

    A shallow embedding of [command/agent/alloc_endpoint.go]: the handlers
    that list, fetch, stop, restart, signal, garbage-collect, measure and
    snapshot allocations, with the calls they make to the rest of the agent
    recorded in a trace. *)

From Stdlib Require Import ZArith Ascii String.
From stdpp Require Import base option list strings gmap.

Local Open Scope Z_scope.
Local Open Scope string_scope.
Local Open Scope list_scope.

(** ** Go values *)

(** A pointer is a cell of the heap; a nullable pointer is [option loc],
    [None] being Go's [nil]. *)
Definition loc := positive.
Definition ptr := option loc.

(** A [[]byte]; only its length and contents are observed here. *)
Definition bytes := list Byte.byte.

(** The three flags returned by [rpcHandlerForAlloc] and [rpcHandlerForNode]:
    [(useLocalClient, useClientRPC, useServerRPC)]. *)
Definition Handler : Type := bool * bool * bool.

(** ** The types of [nomad/structs] and [client/structs]

    The handlers only move these around: they are kept abstract, together
    with the zero value that a Go [var] or composite literal gives them. *)
Class Structs := {
  QueryOptions : Type;          (* structs.QueryOptions, holds the Region *)
  QueryMeta : Type;             (* structs.QueryMeta *)
  WriteRequest : Type;          (* structs.WriteRequest *)
  GenericResponse : Type;       (* structs.GenericResponse *)
  AllocStopResponse : Type;     (* structs.AllocStopResponse *)
  AllocResourceUsage : Type;    (* cstructs.AllocResourceUsage *)
  SignalFields : Type;          (* AllocSignalRequest without AllocID and QueryOptions *)
  TaskStatesT : Type;           (* map[string]*TaskState, by value *)
  AllocFS : Type;               (* allocdir.AllocDirFS *)
  foreign_error : Type;         (* errors made outside this file *)
  zeroQueryOptions : QueryOptions;
  zeroQueryMeta : QueryMeta;
  zeroWriteRequest : WriteRequest;
  zeroGenericResponse : GenericResponse;
  zeroAllocStopResponse : AllocStopResponse;
  zeroSignalFields : SignalFields;
  foreign_Error : foreign_error → string;
}.

Section Endpoint.
Context `{Structs}.

(** ** Errors

    A Go [error] seen from this file: made by [CodedError] (an
    [HTTPCodedError], which carries a status code), made by [fmt.Errorf], or
    handed over by a collaborator. *)
Inductive error :=
| CodedError (code : Z) (msg : string)
| Errorf (msg : string)
| Foreign (e : foreign_error).

(** [err.Error()] *)
Definition Error (e : error) : string :=
  match e with
  | CodedError _ msg => msg
  | Errorf msg => msg
  | Foreign x => foreign_Error x
  end.

(** [err.(HTTPCodedError).Code()], when the error is a coded one. *)
Definition Code (e : error) : option Z :=
  match e with
  | CodedError code _ => Some code
  | _ => None
  end.

Definition allocNotFoundErr : string := "allocation not found".
Definition resourceNotFoundErr : string := "resource not found".

(** ** Requests *)

(** [*http.Request], as far as the handlers read it. *)
Record Request := {
  Method : string;
  URLPath : string;                      (* req.URL.Path *)
  URLQuery : gmap string (list string);  (* req.URL.Query() *)
  Header : gmap string (list string);
  Body : string;
}.

(** [url.Values.Get]: the first value of the key, or the empty string. *)
Definition Values_Get (v : gmap string (list string)) (key : string) : string :=
  match v !! key with
  | Some (x :: _) => x
  | _ => ""
  end.

Record AllocListRequest := {
  List_QueryOptions : QueryOptions;
}.

Record AllocSpecificRequest := {
  Specific_AllocID : string;
  Specific_QueryOptions : QueryOptions;
}.

Record AllocStopRequest := {
  Stop_AllocID : string;
  Stop_WriteRequest : WriteRequest;
}.

Record NodeSpecificRequest := {
  Node_NodeID : string;
  Node_QueryOptions : QueryOptions;
}.

Record AllocRestartRequest := {
  Restart_AllocID : string;
  Restart_TaskName : string;
  Restart_QueryOptions : QueryOptions;
}.

Record AllocSignalRequest := {
  Signal_AllocID : string;
  Signal_Fields : SignalFields;
  Signal_QueryOptions : QueryOptions;
}.

Record AllocStatsRequest := {
  Stats_AllocID : string;
  Stats_Task : string;
  Stats_QueryOptions : QueryOptions;
}.

(** ** Replies *)

Record AllocListResponse := {
  Allocations : option (list ptr);   (* []*structs.AllocListStub, None is nil *)
  List_QueryMeta : QueryMeta;
}.

Record SingleAllocResponse := {
  Alloc : ptr;                       (* *structs.Allocation *)
  Single_QueryMeta : QueryMeta;
}.

Record AllocStatsResponse := {
  Stats : option AllocResourceUsage; (* *cstructs.AllocResourceUsage *)
}.

(** ** The heap: allocations, their jobs and the list stubs *)

Record Job := {
  Payload : bytes;
}.

Record Allocation := {
  Alloc_Job : ptr;                   (* *structs.Job *)
  Alloc_TaskStates : TaskStatesT;
}.

Record AllocListStub := {
  Stub_TaskStates : TaskStatesT;
}.

Record Heap := {
  allocs : gmap loc Allocation;
  jobs : gmap loc Job;
  stubs : gmap loc AllocListStub;
}.

(** ** What a handler does to the rest of the agent *)

(** Which of the agent's RPC entry points a call goes through:
    [s.agent.RPC], [s.agent.Client().ClientRPC], [s.agent.Client().RPC] and
    [s.agent.Server().RPC]. *)
Inductive Transport :=
| Agent_RPC
| Client_ClientRPC
| Client_RPC
| Server_RPC.

Inductive RPCArgs :=
| ArgsAllocList (a : AllocListRequest)
| ArgsAllocSpecific (a : AllocSpecificRequest)
| ArgsAllocStop (a : AllocStopRequest)
| ArgsNodeSpecific (a : NodeSpecificRequest)
| ArgsAllocRestart (a : AllocRestartRequest)
| ArgsAllocSignal (a : AllocSignalRequest)
| ArgsAllocStats (a : AllocStatsRequest).

Inductive Event :=
| EvRPC (t : Transport) (method : string) (args : RPCArgs)
| EvRpcHandlerForAlloc (allocID : string) (r : Handler)
| EvRpcHandlerForNode (nodeID : string) (r : Handler)
| EvValidateMigrateToken (allocID secret : string)
| EvGetAllocFS (allocID : string)
| EvSnapshot (fs : AllocFS)
| EvSnappyDecode (src : bytes)
| EvAllocCopy (p : loc)
| EvSetMeta (m : QueryMeta).

Definition is_rpc (ev : Event) : bool :=
  match ev with EvRPC _ _ _ => true | _ => false end.

(** The value a handler returns in its [interface{}] result. *)
Inductive Value :=
| VNil
| VAllocStubs (s : option (list ptr))
| VAlloc (p : loc)
| VAllocStopResponse (r : AllocStopResponse)
| VGenericResponse (r : GenericResponse)
| VAllocResourceUsage (p : option AllocResourceUsage).

(** ** The handler monad

    A handler runs on a heap and gives its result, the heap it leaves and
    the calls it made, oldest first; [None] is a run-time panic (a nil
    pointer dereference). *)
Definition M (A : Type) : Type := Heap → option (A * Heap * list Event).

#[global] Instance M_ret : MRet M := λ A a h, Some (a, h, []).

#[global] Instance M_bind : MBind M := λ A B f m h,
  match m h with
  | None => None
  | Some (a, h1, t1) =>
    match f a h1 with
    | None => None
    | Some (b, h2, t2) => Some (b, h2, t1 ++ t2)
    end
  end.

Definition panic {A} : M A := λ _, None.
Definition emit (ev : Event) : M unit := λ h, Some (tt, h, [ev]).
Definition get_heap : M Heap := λ h, Some (h, h, []).
Definition put_heap (h : Heap) : M unit := λ _, Some (tt, h, []).

(** ** The rest of the agent

    What the handlers call and this file does not define: the request
    parsing helpers and constants of [command/agent/http.go], the routing
    oracle, the error recognisers of [nomad/structs], the client's migrate
    token check and allocation file systems, the snappy codec, and the RPC
    entry points. An RPC call gets the reply variable it has to fill and may
    put objects on the heap. *)
Class Agent := {
  (* command/agent/http.go *)
  ErrInvalidMethod : string;
  clientNotRunning : error;
  agent_client : bool;                       (* s.agent.client != nil *)
  (* s.parse(resp, req, &region, &queryOptions): the options it fills in,
     and whether it answered the request itself *)
  parse : Request → QueryOptions → QueryOptions * bool;
  parseWriteRequest : Request → WriteRequest → WriteRequest;
  (* s.parseToken(req, &secret), from the current value of secret *)
  parseToken : Request → string → string;
  (* decodeBody(req, &args) on a signal request *)
  decodeBody : Request → AllocSignalRequest → AllocSignalRequest * option error;
  (* json.NewDecoder(body).Decode(&reqBody) on struct{ TaskName string },
     from the current TaskName *)
  json_Decode : string → string → string * option error;
  rpcHandlerForAlloc : string → Handler;
  rpcHandlerForNode : string → Handler;
  (* nomad/structs *)
  ErrPermissionDenied : error;
  IsErrNoNodeConn : error → bool;
  IsErrUnknownAllocation : error → bool;
  setDisplayMsg : TaskStatesT → TaskStatesT;
  (* s.agent.Client() *)
  ValidateMigrateToken : string → string → bool;
  GetAllocFS : string → option AllocFS * option error;
  AllocFS_Snapshot : AllocFS → option error; (* allocFS.Snapshot(resp) *)
  (* snappy.Decode(nil, src) *)
  snappy_Decode : bytes → bytes * option error;
  (* the RPC entry points, by the type of the reply *)
  rpc_AllocList :
    Transport → string → RPCArgs → AllocListResponse →
    Heap → Heap * AllocListResponse * option error;
  rpc_SingleAlloc :
    Transport → string → RPCArgs → SingleAllocResponse →
    Heap → Heap * SingleAllocResponse * option error;
  rpc_AllocStop :
    Transport → string → RPCArgs → AllocStopResponse →
    Heap → Heap * AllocStopResponse * option error;
  rpc_Generic :
    Transport → string → RPCArgs → GenericResponse →
    Heap → Heap * GenericResponse * option error;
  rpc_AllocStats :
    Transport → string → RPCArgs → AllocStatsResponse →
    Heap → Heap * AllocStatsResponse * option error;
}.

Context `{Agent}.

(** An RPC call through transport [t]: the call is recorded, the reply and
    the error come from the agent. *)
Definition rpc {R : Type}
    (f : Transport → string → RPCArgs → R → Heap → Heap * R * option error)
    (t : Transport) (method : string) (args : RPCArgs) (reply : R)
    : M (R * option error) :=
  λ h, let '(h1, r, e) := f t method args reply h in
       Some ((r, e), h1, [EvRPC t method args]).

(** [s.rpcHandlerForAlloc(allocID)] and [s.rpcHandlerForNode(nodeID)],
    recorded with what they answered. *)
Definition resolveAlloc (allocID : string) : M Handler :=
  let r := rpcHandlerForAlloc allocID in
  emit (EvRpcHandlerForAlloc allocID r);; mret r.

Definition resolveNode (nodeID : string) : M Handler :=
  let r := rpcHandlerForNode nodeID in
  emit (EvRpcHandlerForNode nodeID r);; mret r.

Definition noRouteMsg : string := "No local Node and node_id not provided".

(** ** Heap accesses *)

Definition load_alloc (p : loc) : M Allocation :=
  h ← get_heap;
  match allocs h !! p with
  | Some a => mret a
  | None => panic
  end.

Definition load_job (j : loc) : M Job :=
  h ← get_heap;
  match jobs h !! j with
  | Some jb => mret jb
  | None => panic
  end.

Definition store_alloc (p : loc) (a : Allocation) : M unit :=
  h ← get_heap;
  put_heap {| allocs := <[p := a]> (allocs h); jobs := jobs h; stubs := stubs h |}.

Definition store_job (j : loc) (jb : Job) : M unit :=
  h ← get_heap;
  put_heap {| allocs := allocs h; jobs := <[j := jb]> (jobs h); stubs := stubs h |}.

(** Modelled from the spec: [Allocation.SetEventDisplayMessages] of
    [nomad/structs] is not in this file. It computes the event-message
    projection of the allocation in place: only the task states change. *)
Definition Allocation_SetEventDisplayMessages (p : loc) : M unit :=
  a ← load_alloc p;
  store_alloc p {| Alloc_Job := Alloc_Job a;
                   Alloc_TaskStates := setDisplayMsg (Alloc_TaskStates a) |}.

(** Modelled from the spec: [AllocListStub.SetEventDisplayMessages] of
    [nomad/structs], the same projection on a list stub; a nil stub
    panics. *)
Definition Stub_SetEventDisplayMessages (p : ptr) : M unit :=
  match p with
  | None => panic
  | Some l =>
    h ← get_heap;
    match stubs h !! l with
    | None => panic
    | Some s =>
      put_heap {| allocs := allocs h; jobs := jobs h;
                  stubs := <[l := {| Stub_TaskStates := setDisplayMsg (Stub_TaskStates s) |}]>
                             (stubs h) |}
    end
  end.

(** Modelled from the spec: [Allocation.Copy] of [nomad/structs] is not in
    this file. It gives a copy of the allocation that shares nothing
    mutable with the original: a new allocation object and, when there is a
    job, a new job object with the same contents. *)
Definition Allocation_Copy (p : loc) : M loc :=
  a ← load_alloc p;
  emit (EvAllocCopy p);;
  job' ← match Alloc_Job a with
         | None => mret None
         | Some j =>
           jb ← load_job j;
           h ← get_heap;
           let j' := fresh (dom (jobs h)) in
           store_job j' jb;; mret (Some j')
         end;
  h ← get_heap;
  let p' := fresh (dom (allocs h)) in
  store_alloc p' {| Alloc_Job := job'; Alloc_TaskStates := Alloc_TaskStates a |};;
  mret p'.

(** [alloc.Job.Payload = decoded] *)
Definition set_Job_Payload (p : loc) (decoded : bytes) : M unit :=
  a ← load_alloc p;
  match Alloc_Job a with
  | None => panic
  | Some j => _ ← load_job j; store_job j {| Payload := decoded |}
  end.

(** [for _, x := range l { f(x) }] *)
Fixpoint for_range {A : Type} (l : list A) (f : A → M unit) : M unit :=
  match l with
  | [] => mret tt
  | x :: l' => f x;; for_range l' f
  end.

(** A slice in a [range] loop or under [len]: the nil slice has no
    element. *)
Definition elems {A : Type} (s : option (list A)) : list A := default [] s.

(** ** Strings *)

Fixpoint strip_prefix (prefix s : string) : option string :=
  match prefix, s with
  | EmptyString, _ => Some s
  | String a prefix', String b s' =>
    if Ascii.eqb a b then strip_prefix prefix' s' else None
  | String _ _, EmptyString => None
  end.

(** [strings.TrimPrefix] *)
Definition TrimPrefix (s prefix : string) : string :=
  default s (strip_prefix prefix s).

(** [strings.Split] on a separator of one byte, which ["/"] is. *)
Fixpoint Split (s : string) (sep : ascii) : list string :=
  match s with
  | EmptyString => [EmptyString]
  | String c s' =>
    if Ascii.eqb c sep then EmptyString :: Split s' sep
    else match Split s' sep with
         | t :: ts => String c t :: ts
         | [] => [String c EmptyString]
         end
  end.

Definition slash : ascii := "/"%char.

(** ** The handlers *)

(** What every client verb does with the error of its RPC: the two errors
    in [recognised] become a 404 that keeps the message. Each verb spells
    this out in the source; they differ in the recogniser only. *)
Definition to404 (recognised : error → bool) (rpcErr : option error) : option error :=
  match rpcErr with
  | Some e => if recognised e then Some (CodedError 404 (Error e)) else Some e
  | None => None
  end.

Definition AllocsRequest (req : Request) : M (Value * option error) :=
  if negb (String.eqb (Method req) "GET") then
    mret (VNil, Some (CodedError 405 ErrInvalidMethod))
  else
    let '(qo, handled) := parse req zeroQueryOptions in
    let args := {| List_QueryOptions := qo |} in
    if handled then mret (VNil, None)
    else
      '(out, err) ← rpc rpc_AllocList Agent_RPC "Alloc.List" (ArgsAllocList args)
                        {| Allocations := None; List_QueryMeta := zeroQueryMeta |};
      match err with
      | Some e => mret (VNil, Some e)
      | None =>
        emit (EvSetMeta (List_QueryMeta out));;
        let allocations :=
          match Allocations out with
          | None => Some []
          | Some l => Some l
          end in
        for_range (elems allocations) Stub_SetEventDisplayMessages;;
        mret (VAllocStubs allocations, None)
      end.

Definition allocGet (allocID : string) (req : Request) : M (Value * option error) :=
  if negb (String.eqb (Method req) "GET") then
    mret (VNil, Some (CodedError 405 ErrInvalidMethod))
  else
    let '(qo, handled) := parse req zeroQueryOptions in
    let args := {| Specific_AllocID := allocID; Specific_QueryOptions := qo |} in
    if handled then mret (VNil, None)
    else
      '(out, err) ← rpc rpc_SingleAlloc Agent_RPC "Alloc.GetAlloc" (ArgsAllocSpecific args)
                        {| Alloc := None; Single_QueryMeta := zeroQueryMeta |};
      match err with
      | Some e => mret (VNil, Some e)
      | None =>
        emit (EvSetMeta (Single_QueryMeta out));;
        match Alloc out with
        | None => mret (VNil, Some (CodedError 404 "alloc not found"))
        | Some p =>
          a ← load_alloc p;
          payload ← match Alloc_Job a with
                    | None => mret []
                    | Some j => jb ← load_job j; mret (Payload jb)
                    end;
          if negb (Nat.eqb (length payload) 0) then
            emit (EvSnappyDecode payload);;
            let '(decoded, err) := snappy_Decode payload in
            match err with
            | Some e => mret (VNil, Some e)
            | None =>
              alloc ← Allocation_Copy p;
              set_Job_Payload alloc decoded;;
              Allocation_SetEventDisplayMessages alloc;;
              mret (VAlloc alloc, None)
            end
          else
            Allocation_SetEventDisplayMessages p;;
            mret (VAlloc p, None)
        end
      end.

Definition allocStop (allocID : string) (req : Request) : M (Value * option error) :=
  if negb (String.eqb (Method req) "POST" || String.eqb (Method req) "PUT") then
    mret (VNil, Some (CodedError 405 ErrInvalidMethod))
  else
    let sr := {| Stop_AllocID := allocID;
                 Stop_WriteRequest := parseWriteRequest req zeroWriteRequest |} in
    '(out, err) ← rpc rpc_AllocStop Agent_RPC "Alloc.Stop" (ArgsAllocStop sr)
                      zeroAllocStopResponse;
    mret (VAllocStopResponse out, err).

(** The handler [AllocSpecificRequest]; the name alone is the request type
    of [nomad/structs]. *)
Definition AllocSpecificRequest_handler (req : Request) : M (Value * option error) :=
  let reqSuffix := TrimPrefix (URLPath req) "/v1/allocation/" in
  let tokens := Split reqSuffix slash in
  match tokens with
  | [allocID] => allocGet allocID req
  | [allocID; action] =>
    if String.eqb action "stop" then allocStop allocID req
    else mret (VNil, Some (CodedError 404 resourceNotFoundErr))
  | _ => mret (VNil, Some (CodedError 404 resourceNotFoundErr))
  end.

Definition ClientGCRequest (req : Request) : M (Value * option error) :=
  let requestedNode := Values_Get (URLQuery req) "node_id" in
  let args := {| Node_NodeID := requestedNode;
                 Node_QueryOptions := (parse req zeroQueryOptions).1 |} in
  '((useLocalClient, useClientRPC, useServerRPC) : Handler) ← resolveNode requestedNode;
  '(reply, rpcErr) ←
    (if useLocalClient then
       rpc rpc_Generic Client_ClientRPC "Allocations.GarbageCollectAll"
           (ArgsNodeSpecific args) zeroGenericResponse
     else if useClientRPC then
       rpc rpc_Generic Client_RPC "ClientAllocations.GarbageCollectAll"
           (ArgsNodeSpecific args) zeroGenericResponse
     else if useServerRPC then
       rpc rpc_Generic Server_RPC "ClientAllocations.GarbageCollectAll"
           (ArgsNodeSpecific args) zeroGenericResponse
     else mret (zeroGenericResponse, Some (CodedError 400 noRouteMsg))
     : M (GenericResponse * option error));
  mret (VNil, to404 IsErrNoNodeConn rpcErr).

Definition allocRestart (allocID : string) (req : Request) : M (Value * option error) :=
  let args := {| Restart_AllocID := allocID;
                 Restart_TaskName := "";
                 Restart_QueryOptions := (parse req zeroQueryOptions).1 |} in
  let '(reqBody_TaskName, err) := json_Decode (Body req) "" in
  match err with
  | Some e => mret (VNil, Some e)
  | None =>
    let args :=
      if negb (String.eqb reqBody_TaskName "") then
        {| Restart_AllocID := Restart_AllocID args;
           Restart_TaskName := reqBody_TaskName;
           Restart_QueryOptions := Restart_QueryOptions args |}
      else args in
    '((useLocalClient, useClientRPC, useServerRPC) : Handler) ← resolveAlloc allocID;
    '(reply, rpcErr) ←
      (if useLocalClient then
         rpc rpc_Generic Client_ClientRPC "Allocations.Restart"
             (ArgsAllocRestart args) zeroGenericResponse
       else if useClientRPC then
         rpc rpc_Generic Client_RPC "ClientAllocations.Restart"
             (ArgsAllocRestart args) zeroGenericResponse
       else if useServerRPC then
         rpc rpc_Generic Server_RPC "ClientAllocations.Restart"
             (ArgsAllocRestart args) zeroGenericResponse
       else mret (zeroGenericResponse, Some (CodedError 400 noRouteMsg))
     : M (GenericResponse * option error));
    mret (VGenericResponse reply,
          to404 (λ e, IsErrNoNodeConn e || IsErrUnknownAllocation e) rpcErr)
  end.

Definition allocGC (allocID : string) (req : Request) : M (Value * option error) :=
  let args := {| Specific_AllocID := allocID;
                 Specific_QueryOptions := (parse req zeroQueryOptions).1 |} in
  '((useLocalClient, useClientRPC, useServerRPC) : Handler) ← resolveAlloc allocID;
  '(reply, rpcErr) ←
    (if useLocalClient then
       rpc rpc_Generic Client_ClientRPC "Allocations.GarbageCollect"
           (ArgsAllocSpecific args) zeroGenericResponse
     else if useClientRPC then
       rpc rpc_Generic Client_RPC "ClientAllocations.GarbageCollect"
           (ArgsAllocSpecific args) zeroGenericResponse
     else if useServerRPC then
       rpc rpc_Generic Server_RPC "ClientAllocations.GarbageCollect"
           (ArgsAllocSpecific args) zeroGenericResponse
     else mret (zeroGenericResponse, Some (CodedError 400 noRouteMsg))
     : M (GenericResponse * option error));
  mret (VNil, to404 (λ e, IsErrNoNodeConn e || IsErrUnknownAllocation e) rpcErr).

Definition allocSignal (allocID : string) (req : Request) : M (Value * option error) :=
  if negb (String.eqb (Method req) "POST" || String.eqb (Method req) "PUT") then
    mret (VNil, Some (CodedError 405 ErrInvalidMethod))
  else
    let '(args, err) :=
      decodeBody req {| Signal_AllocID := "";
                        Signal_Fields := zeroSignalFields;
                        Signal_QueryOptions := zeroQueryOptions |} in
    match err with
    | Some e =>
      mret (VNil, Some (CodedError 400 ("Failed to decode body: " +:+ Error e)))
    | None =>
      let args := {| Signal_AllocID := Signal_AllocID args;
                     Signal_Fields := Signal_Fields args;
                     Signal_QueryOptions := (parse req (Signal_QueryOptions args)).1 |} in
      let args := {| Signal_AllocID := allocID;
                     Signal_Fields := Signal_Fields args;
                     Signal_QueryOptions := Signal_QueryOptions args |} in
      '((useLocalClient, useClientRPC, useServerRPC) : Handler) ← resolveAlloc allocID;
      '(reply, rpcErr) ←
        (if useLocalClient then
           rpc rpc_Generic Client_ClientRPC "Allocations.Signal"
               (ArgsAllocSignal args) zeroGenericResponse
         else if useClientRPC then
           rpc rpc_Generic Client_RPC "ClientAllocations.Signal"
               (ArgsAllocSignal args) zeroGenericResponse
         else if useServerRPC then
           rpc rpc_Generic Server_RPC "ClientAllocations.Signal"
               (ArgsAllocSignal args) zeroGenericResponse
         else mret (zeroGenericResponse, Some (CodedError 400 noRouteMsg))
     : M (GenericResponse * option error));
      mret (VGenericResponse reply,
            to404 (λ e, IsErrNoNodeConn e || IsErrUnknownAllocation e) rpcErr)
    end.

Definition allocSnapshot (allocID : string) (req : Request) : M (Value * option error) :=
  let secret := parseToken req "" in
  emit (EvValidateMigrateToken allocID secret);;
  if negb (ValidateMigrateToken allocID secret) then
    mret (VNil, Some ErrPermissionDenied)
  else
    emit (EvGetAllocFS allocID);;
    let '(allocFS, err) := GetAllocFS allocID in
    match err with
    | Some _ => mret (VNil, Some (Errorf allocNotFoundErr))
    | None =>
      match allocFS with
      | None => panic
      | Some fs =>
        emit (EvSnapshot fs);;
        match AllocFS_Snapshot fs with
        | Some e => mret (VNil, Some (Errorf ("error making snapshot: " +:+ Error e)))
        | None => mret (VNil, None)
        end
      end
    end.

Definition allocStats (allocID : string) (req : Request) : M (Value * option error) :=
  let task := Values_Get (URLQuery req) "task" in
  let args := {| Stats_AllocID := allocID;
                 Stats_Task := task;
                 Stats_QueryOptions := (parse req zeroQueryOptions).1 |} in
  '((useLocalClient, useClientRPC, useServerRPC) : Handler) ← resolveAlloc allocID;
  '(reply, rpcErr) ←
    (if useLocalClient then
       rpc rpc_AllocStats Client_ClientRPC "Allocations.Stats"
           (ArgsAllocStats args) {| Stats := None |}
     else if useClientRPC then
       rpc rpc_AllocStats Client_RPC "ClientAllocations.Stats"
           (ArgsAllocStats args) {| Stats := None |}
     else if useServerRPC then
       rpc rpc_AllocStats Server_RPC "ClientAllocations.Stats"
           (ArgsAllocStats args) {| Stats := None |}
     else mret ({| Stats := None |}, Some (CodedError 400 noRouteMsg))
     : M (AllocStatsResponse * option error));
  mret (VAllocResourceUsage (Stats reply),
        to404 (λ e, IsErrNoNodeConn e || IsErrUnknownAllocation e) rpcErr).

Definition ClientAllocRequest (req : Request) : M (Value * option error) :=
  let reqSuffix := TrimPrefix (URLPath req) "/v1/client/allocation/" in
  let tokens := Split reqSuffix slash in
  match tokens with
  | [allocID; action] =>
    if String.eqb action "stats" then allocStats allocID req
    else if String.eqb action "snapshot" then
      if negb agent_client then mret (VNil, Some clientNotRunning)
      else allocSnapshot allocID req
    else if String.eqb action "restart" then allocRestart allocID req
    else if String.eqb action "gc" then allocGC allocID req
    else if String.eqb action "signal" then allocSignal allocID req
    else mret (VNil, Some (CodedError 404 resourceNotFoundErr))
  | _ => mret (VNil, Some (CodedError 404 resourceNotFoundErr))
  end.

End Endpoint.

(** ** The five client verbs, side by side, and the vocabulary of the
    statements *)

Inductive Verb := OpRestart | OpSignal | OpGarbageCollect | OpGarbageCollectAll | OpStats.

Section Verbs.
Context `{Agent}.

(** The handler of a verb; [OpGarbageCollectAll] is node-scoped and takes its
    node from the query, not from [id]. *)
Definition run_verb (v : Verb) (id : string) (req : Request) : M (Value * option error) :=
  match v with
  | OpRestart => allocRestart id req
  | OpSignal => allocSignal id req
  | OpGarbageCollect => allocGC id req
  | OpGarbageCollectAll => ClientGCRequest req
  | OpStats => allocStats id req
  end.

(** The error the agent gives to the RPC call [t], [method], [args] that
    verb [v] makes on heap [h]. *)
Definition backend_error (v : Verb) (t : Transport) (method : string) (args : RPCArgs)
    (h : Heap) : option error :=
  match v with
  | OpStats => (rpc_AllocStats t method args {| Stats := None |} h).2
  | _ => (rpc_Generic t method args zeroGenericResponse h).2
  end.

(** The errors verb [v] turns into a 404. *)
Definition recognised (v : Verb) (e : error) : bool :=
  match v with
  | OpGarbageCollectAll => IsErrNoNodeConn e
  | _ => IsErrNoNodeConn e || IsErrUnknownAllocation e
  end.


(** The allocation an RPC request names, when it names one. *)
Definition args_AllocID (a : RPCArgs) : option string :=
  match a with
  | ArgsAllocSpecific x => Some (Specific_AllocID x)
  | ArgsAllocStop x => Some (Stop_AllocID x)
  | ArgsAllocRestart x => Some (Restart_AllocID x)
  | ArgsAllocSignal x => Some (Signal_AllocID x)
  | ArgsAllocStats x => Some (Stats_AllocID x)
  | ArgsAllocList _ | ArgsNodeSpecific _ => None
  end.

(** The statement that every one of the five verbs turns both recognised
    errors into a 404 that keeps the message. *)
Definition both_errors_become_404 : Prop :=
  ∀ (v : Verb) (id : string) (req : Request) (h h' : Heap) (r : Value * option error)
    (tr : list Event) (t : Transport) (method : string) (args : RPCArgs) (e : error),
    run_verb v id req h = Some (r, h', tr) →
    EvRPC t method args ∈ tr →
    backend_error v t method args h = Some e →
    IsErrNoNodeConn e || IsErrUnknownAllocation e = true →
    r.2 = Some (CodedError 404 (Error e)).

(** [Alloc.GetAlloc] answered the GET of [id] with [out], leaving heap [h1]. *)
Definition GetAlloc_replies (id : string) (req : Request) (h h1 : Heap)
    (out : SingleAllocResponse) : Prop :=
  Method req = "GET" ∧
  (parse req zeroQueryOptions).2 = false ∧
  rpc_SingleAlloc Agent_RPC "Alloc.GetAlloc"
    (ArgsAllocSpecific {| Specific_AllocID := id;
                          Specific_QueryOptions := (parse req zeroQueryOptions).1 |})
    {| Alloc := None; Single_QueryMeta := zeroQueryMeta |} h
  = (h1, out, None).

(** What [allocGet] does before it looks at the allocation. *)
Definition GetAlloc_trace (id : string) (req : Request) (out : SingleAllocResponse)
    : list Event :=
  [EvRPC Agent_RPC "Alloc.GetAlloc"
     (ArgsAllocSpecific {| Specific_AllocID := id;
                           Specific_QueryOptions := (parse req zeroQueryOptions).1 |});
   EvSetMeta (Single_QueryMeta out)].

(** [Alloc.List] answered the GET with [out], leaving heap [h1]. *)
Definition List_replies (req : Request) (h h1 : Heap) (out : AllocListResponse) : Prop :=
  Method req = "GET" ∧
  (parse req zeroQueryOptions).2 = false ∧
  rpc_AllocList Agent_RPC "Alloc.List"
    (ArgsAllocList {| List_QueryOptions := (parse req zeroQueryOptions).1 |})
    {| Allocations := None; List_QueryMeta := zeroQueryMeta |} h
  = (h1, out, None).

Definition List_trace (req : Request) (out : AllocListResponse) : list Event :=
  [EvRPC Agent_RPC "Alloc.List"
     (ArgsAllocList {| List_QueryOptions := (parse req zeroQueryOptions).1 |});
   EvSetMeta (List_QueryMeta out)].



(** *** Vocabulary of the further properties *)

(** The number of bytes [c] in [s]. *)
Fixpoint count_byte (c : ascii) (s : string) : nat :=
  match s with
  | EmptyString => 0
  | String x s' => (if Ascii.eqb x c then 1 else 0) + count_byte c s'
  end.

(** The name of a verb in the RPC method names. *)
Definition verb_name (v : Verb) : string :=
  match v with
  | OpRestart => "Restart"
  | OpSignal => "Signal"
  | OpGarbageCollect => "GarbageCollect"
  | OpGarbageCollectAll => "GarbageCollectAll"
  | OpStats => "Stats"
  end.

(** The answer of the routing oracle that verb [v] goes by. *)
Definition verb_route (v : Verb) (id : string) (req : Request) : Handler :=
  match v with
  | OpGarbageCollectAll => rpcHandlerForNode (Values_Get (URLQuery req) "node_id")
  | _ => rpcHandlerForAlloc id
  end.



(** The entry point and the method that an answer of the oracle stands
    for, the first flag that is set winning. *)
Definition selected (v : Verb) (r : Handler) : option (Transport * string) :=
  let '(useLocalClient, useClientRPC, useServerRPC) := r in
  if useLocalClient then Some (Client_ClientRPC, "Allocations." +:+ verb_name v)
  else if useClientRPC then Some (Client_RPC, "ClientAllocations." +:+ verb_name v)
  else if useServerRPC then Some (Server_RPC, "ClientAllocations." +:+ verb_name v)
  else None.

(** The value verb [v] returns once its RPC call [t], [method], [args] is
    back: the reply of Restart and Signal, the inner statistics of Stats,
    nothing for the two collections. *)
Definition reply_value (v : Verb) (t : Transport) (method : string) (args : RPCArgs)
    (h : Heap) : Value :=
  match v with
  | OpRestart | OpSignal =>
    VGenericResponse (rpc_Generic t method args zeroGenericResponse h).1.2
  | OpStats =>
    VAllocResourceUsage (Stats (rpc_AllocStats t method args {| Stats := None |} h).1.2)
  | OpGarbageCollect | OpGarbageCollectAll => VNil
  end.

(** The heap verb [v] leaves once its RPC call is back. *)
Definition reply_heap (v : Verb) (t : Transport) (method : string) (args : RPCArgs)
    (h : Heap) : Heap :=
  match v with
  | OpStats => (rpc_AllocStats t method args {| Stats := None |} h).1.1
  | _ => (rpc_Generic t method args zeroGenericResponse h).1.1
  end.

(** The calls that are not allowed before the migrate token is checked. *)
Definition is_routing (ev : Event) : bool :=
  match ev with
  | EvRpcHandlerForAlloc _ _ | EvRpcHandlerForNode _ _ => true
  | _ => false
  end.

End Verbs.

(** ** A small agent to run the handlers on *)

Module Sample.

(** The errors of the collaborators. *)
Inductive failure :=
| NoNodeConn
| UnknownAllocation
| PermissionDenied
| ClientNotRunning
| EOF
| SyntaxError
| Corrupt
| DiskError.

Definition failure_message (f : failure) : string :=
  match f with
  | NoNodeConn => "No path to node"
  | UnknownAllocation => "Unknown allocation"
  | PermissionDenied => "Permission denied"
  | ClientNotRunning => "node is not running a Nomad Client"
  | EOF => "EOF"
  | SyntaxError => "invalid character"
  | Corrupt => "snappy: corrupt input"
  | DiskError => "input/output error"
  end.

(** Task states as pairs of an event type and its display message. *)
#[export] Instance structs : Structs := {|
  QueryOptions := string;
  QueryMeta := nat;
  WriteRequest := string;
  GenericResponse := nat;
  AllocStopResponse := nat;
  AllocResourceUsage := nat;
  SignalFields := string;
  TaskStatesT := list (string * string);
  AllocFS := string;
  foreign_error := failure;
  zeroQueryOptions := "";
  zeroQueryMeta := 0%nat;
  zeroWriteRequest := "";
  zeroGenericResponse := 0%nat;
  zeroAllocStopResponse := 0%nat;
  zeroSignalFields := "";
  foreign_Error := failure_message;
|}.

(** What varies from one run to the next. *)
Record Scenario := {
  route : Handler;                 (* the answer of the routing oracle *)
  backend : option failure;        (* the error of every RPC *)
  token_ok : bool;                 (* the migrate token is valid *)
  fs_failure : option failure;     (* GetAllocFS fails *)
  stream_failure : option failure; (* Snapshot fails *)
  listed : option (list ptr);      (* the stubs Alloc.List replies *)
  found : ptr;                     (* the allocation Alloc.GetAlloc replies *)
}.

#[local] Instance failure_eq_dec : EqDecision failure.
Proof. solve_decision. Defined.

Definition is_failure (f : failure) (e : error) : bool :=
  match e with
  | Foreign x => bool_decide ((x : failure) = f)
  | _ => false
  end.

(** The restart body: an empty one ends the input at once, anything that
    does not open an object is a syntax error, and an object read here
    names no task. *)
Definition decode_restart (body : string) (TaskName : string) : string * option error :=
  match body with
  | EmptyString => (TaskName, Some (Foreign EOF))
  | String c _ =>
    if Ascii.eqb c "{"%char then (TaskName, None)
    else (TaskName, Some (Foreign SyntaxError))
  end.

(** The signal body: every object read here names the allocation
    [other-alloc] and carries the body as its signal. *)
Definition decode_signal (req : Request) (args : AllocSignalRequest)
    : AllocSignalRequest * option error :=
  match Body req with
  | EmptyString => (args, Some (Foreign EOF))
  | String c _ =>
    if Ascii.eqb c "{"%char then
      ({| Signal_AllocID := "other-alloc";
          Signal_Fields := Body req;
          Signal_QueryOptions := Signal_QueryOptions args |}, None)
    else (args, Some (Foreign SyntaxError))
  end.

(** A codec that frames the data with one leading byte. *)
Definition decode_payload (src : bytes) : bytes * option error :=
  match src with
  | [] => ([], Some (Foreign Corrupt))
  | _ :: data => (data, None)
  end.

Definition display (ts : list (string * string)) : list (string * string) :=
  (λ ev, (ev.1, "Task " +:+ ev.1)) <$> ts.

Definition agent (sc : Scenario) : Agent := {|
  ErrInvalidMethod := "Invalid method";
  clientNotRunning := Foreign ClientNotRunning;
  ErrPermissionDenied := Foreign PermissionDenied;
  agent_client := true;
  parse := λ req qo, (Values_Get (URLQuery req) "region", false);
  parseWriteRequest := λ req wr, Values_Get (URLQuery req) "region";
  parseToken := λ req token,
    let other := Values_Get (Header req) "X-Nomad-Token" in
    if String.eqb other "" then token else other;
  decodeBody := decode_signal;
  json_Decode := decode_restart;
  rpcHandlerForAlloc := λ _, route sc;
  rpcHandlerForNode := λ _, route sc;
  IsErrNoNodeConn := is_failure NoNodeConn;
  IsErrUnknownAllocation := is_failure UnknownAllocation;
  ValidateMigrateToken := λ _ _, token_ok sc;
  GetAllocFS := λ id,
    match fs_failure sc with
    | Some f => (None, Some (Foreign f))
    | None => (Some id, None)
    end;
  AllocFS_Snapshot := λ _, Foreign <$> stream_failure sc;
  snappy_Decode := decode_payload;
  setDisplayMsg := display;
  rpc_AllocList := λ _ _ _ reply h,
    match backend sc with
    | Some f => (h, reply, Some (Foreign f))
    | None => (h, {| Allocations := listed sc; List_QueryMeta := 7%nat |}, None)
    end;
  rpc_SingleAlloc := λ _ _ _ reply h,
    match backend sc with
    | Some f => (h, reply, Some (Foreign f))
    | None => (h, {| Alloc := found sc; Single_QueryMeta := 7%nat |}, None)
    end;
  rpc_AllocStop := λ _ _ _ reply h, (h, reply, Foreign <$> backend sc);
  rpc_Generic := λ _ _ _ reply h, (h, reply, Foreign <$> backend sc);
  rpc_AllocStats := λ _ _ _ reply h,
    match backend sc with
    | Some f => (h, reply, Some (Foreign f))
    | None => (h, {| Stats := Some 42%nat |}, None)
    end;
|}.

Definition request (method path body : string) : Request := {|
  Method := method;
  URLPath := path;
  URLQuery := ∅;
  Header := ∅;
  Body := body;
|}.

Definition request_with (query : gmap string (list string)) (method path : string)
    : Request := {|
  Method := method;
  URLPath := path;
  URLQuery := query;
  Header := ∅;
  Body := "";
|}.

Definition empty_heap : Heap := {| allocs := ∅; jobs := ∅; stubs := ∅ |}.

(** Everything works: the allocation is local and the token is good. *)
Definition healthy : Scenario := {|
  route := (true, false, false);
  backend := None;
  token_ok := true;
  fs_failure := None;
  stream_failure := None;
  listed := None;
  found := None;
|}.

(** No route at all. *)
Definition stranded : Scenario := {|
  route := (false, false, false);
  backend := None;
  token_ok := true;
  fs_failure := None;
  stream_failure := None;
  listed := None;
  found := None;
|}.

(** The requests go through the servers, and the RPC fails with [f]. *)
Definition failing (f : failure) : Scenario := {|
  route := (false, true, false);
  backend := Some f;
  token_ok := true;
  fs_failure := None;
  stream_failure := None;
  listed := None;
  found := None;
|}.

(** The requests go through the servers and the RPC succeeds. *)
Definition remote : Scenario := {|
  route := (false, true, false);
  backend := None;
  token_ok := true;
  fs_failure := None;
  stream_failure := None;
  listed := None;
  found := None;
|}.

(** The migrate token is refused. *)
Definition bad_token : Scenario := {|
  route := (true, false, false);
  backend := None;
  token_ok := false;
  fs_failure := None;
  stream_failure := None;
  listed := None;
  found := None;
|}.

(** The client has no file system for the allocation. *)
Definition no_fs : Scenario := {|
  route := (true, false, false);
  backend := None;
  token_ok := true;
  fs_failure := Some DiskError;
  stream_failure := None;
  listed := None;
  found := None;
|}.

(** [Alloc.GetAlloc] replies the allocation at [p]. *)
Definition finding (p : loc) : Scenario := {|
  route := (true, false, false);
  backend := None;
  token_ok := true;
  fs_failure := None;
  stream_failure := None;
  listed := None;
  found := Some p;
|}.

(** [Alloc.List] replies the slice [l]. *)
Definition listing (l : option (list ptr)) : Scenario := {|
  route := (true, false, false);
  backend := None;
  token_ok := true;
  fs_failure := None;
  stream_failure := None;
  listed := l;
  found := None;
|}.

Definition started : list (string * string) := [("Started", "")].

(** Allocation 1 has a job with a framed payload, allocation 2 a job with
    no payload. *)
Definition stored_heap : Heap := {|
  allocs := {[ 1%positive := {| Alloc_Job := Some 1%positive; Alloc_TaskStates := started |};
               2%positive := {| Alloc_Job := Some 2%positive; Alloc_TaskStates := started |} ]};
  jobs := {[ 1%positive := {| Payload := [Byte.x02; Byte.x68; Byte.x69] |};
             2%positive := {| Payload := [] |} ]};
  stubs := {[ 5%positive := {| Stub_TaskStates := started |} ]};
|}.

Definition alloc_of_job (j : loc) : @Allocation structs :=
  {| Alloc_Job := Some j; Alloc_TaskStates := started |}.

Definition get_reply (p : loc) : @SingleAllocResponse structs :=
  {| Alloc := Some p; Single_QueryMeta := 7%nat |}.

Definition list_reply (l : option (list ptr)) : @AllocListResponse structs :=
  {| Allocations := l; List_QueryMeta := 7%nat |}.

(** The errors and values of the runs below, at the types of the sample. *)
Definition failed (f : failure) : @error structs := Foreign f.
Definition coded (code : Z) (msg : string) : @error structs := CodedError code msg.
Definition plain (msg : string) : @error structs := Errorf msg.
Definition no_value : @Value structs := VNil.
Definition ack (index : nat) : @Value structs := @VGenericResponse structs index.
Definition usage (u : option nat) : @Value structs := @VAllocResourceUsage structs u.

(** The requests of the runs below and the RPC arguments they lead to. *)
Definition gc_request : Request := request "PUT" "/v1/client/gc" "".

Definition gc_args : @RPCArgs structs :=
  ArgsNodeSpecific (@Build_NodeSpecificRequest structs "" "").

Definition restart_args (id : string) : @RPCArgs structs :=
  ArgsAllocRestart (@Build_AllocRestartRequest structs id "" "").

Definition signal_args (id body : string) : @RPCArgs structs :=
  ArgsAllocSignal (@Build_AllocSignalRequest structs id body "").

Definition stats_args (id : string) : @RPCArgs structs :=
  ArgsAllocStats (@Build_AllocStatsRequest structs id "" "").

Definition get_args (id : string) : @RPCArgs structs :=
  ArgsAllocSpecific (@Build_AllocSpecificRequest structs id "").

Definition list_args : @RPCArgs structs :=
  ArgsAllocList (@Build_AllocListRequest structs "").

(** Every flag of the routing oracle is set. *)
Definition everywhere : Scenario := {|
  route := (true, true, true);
  backend := None;
  token_ok := true;
  fs_failure := None;
  stream_failure := None;
  listed := None;
  found := None;
|}.

(** A codec that refuses everything. *)
Definition refuse_payload (src : bytes) : bytes * option error :=
  ([], Some (Foreign Corrupt)).

(** The sample agent with or without a client, with a [parse] that answers
    the request itself or not, and with the codec [codec]. *)
Definition agent_with (client handled : bool) (codec : bytes → bytes * option error)
    (sc : Scenario) : Agent := {|
  ErrInvalidMethod := @ErrInvalidMethod structs (agent sc);
  clientNotRunning := @clientNotRunning structs (agent sc);
  agent_client := client;
  parse := λ req qo, ((@parse structs (agent sc) req qo).1, handled);
  parseWriteRequest := @parseWriteRequest structs (agent sc);
  parseToken := @parseToken structs (agent sc);
  decodeBody := @decodeBody structs (agent sc);
  json_Decode := @json_Decode structs (agent sc);
  rpcHandlerForAlloc := @rpcHandlerForAlloc structs (agent sc);
  rpcHandlerForNode := @rpcHandlerForNode structs (agent sc);
  ErrPermissionDenied := @ErrPermissionDenied structs (agent sc);
  IsErrNoNodeConn := @IsErrNoNodeConn structs (agent sc);
  IsErrUnknownAllocation := @IsErrUnknownAllocation structs (agent sc);
  setDisplayMsg := @setDisplayMsg structs (agent sc);
  ValidateMigrateToken := @ValidateMigrateToken structs (agent sc);
  GetAllocFS := @GetAllocFS structs (agent sc);
  AllocFS_Snapshot := @AllocFS_Snapshot structs (agent sc);
  snappy_Decode := codec;
  rpc_AllocList := @rpc_AllocList structs (agent sc);
  rpc_SingleAlloc := @rpc_SingleAlloc structs (agent sc);
  rpc_AllocStop := @rpc_AllocStop structs (agent sc);
  rpc_Generic := @rpc_Generic structs (agent sc);
  rpc_AllocStats := @rpc_AllocStats structs (agent sc);
|}.

End Sample.

(** ** Properties of the handlers *)

Section Properties.
Context `{Agent}.

Ltac unfold_handlers :=
  unfold run_verb, allocRestart, allocSignal, allocGC, ClientGCRequest, allocStats,
    allocSnapshot, resolveAlloc, resolveNode, rpc, emit, to404,
    mbind, M_bind, mret, M_ret in *.

Ltac step :=
  match goal with
  | |- context [match ?x with _ => _ end] => destruct x eqn:?
  | H : context [match ?x with _ => _ end] |- _ => destruct x eqn:?
  end.

(** Run a handler through every branch it can take. *)
Ltac run := unfold_handlers; cbn in *; repeat (step; cbn in *; simplify_eq).

(** Take a membership in a concrete trace apart. *)
Ltac in_trace :=
  cbn in *;
  repeat match goal with
  | H : _ ∈ [] |- _ => apply elem_of_nil in H; destruct H
  | H : _ ∈ _ :: _ |- _ => apply elem_of_cons in H; destruct H as [H|H]; simplify_eq
  end.

(** The client verbs touch no pointer: they always return. *)
Lemma run_verb_total (v : Verb) (id : string) (req : Request) (h : Heap) :
  is_Some (run_verb v id req h).
Proof. destruct v; run; eauto. Qed.

(** X24. The handlers that look at the method answer 405 to the others,
    and call nothing. *)
Lemma checked_methods (id : string) (req : Request) (h : Heap) :
  (Method req ≠ "GET" →
   AllocsRequest req h = Some ((VNil, Some (CodedError 405 ErrInvalidMethod)), h, []) ∧
   allocGet id req h = Some ((VNil, Some (CodedError 405 ErrInvalidMethod)), h, [])) ∧
  (Method req ≠ "POST" → Method req ≠ "PUT" →
   allocStop id req h = Some ((VNil, Some (CodedError 405 ErrInvalidMethod)), h, []) ∧
   allocSignal id req h = Some ((VNil, Some (CodedError 405 ErrInvalidMethod)), h, [])).
Proof.
  split.
  - intros Hm%String.eqb_neq. unfold AllocsRequest, allocGet. by rewrite Hm.
  - intros Hpost%String.eqb_neq Hput%String.eqb_neq.
    unfold allocStop, allocSignal. by rewrite Hpost, Hput.
Qed.

(** C1, as amended. Restart, Signal, GarbageCollect and Stats turn an RPC
    error recognised as "no connection to the node" or as "unknown
    allocation" into a 404 that carries the message of the error;
    GarbageCollectAll does so for "no connection to the node" only. *)
Theorem recognised_errors_become_404
    (v : Verb) (id : string) (req : Request) (h h' : Heap) (r : Value * option error)
    (tr : list Event) (t : Transport) (method : string) (args : RPCArgs) (e : error) :
  run_verb v id req h = Some (r, h', tr) →
  EvRPC t method args ∈ tr →
  backend_error v t method args h = Some e →
  recognised v e = true →
  r.2 = Some (CodedError 404 (Error e)).
Proof.
  intros Hrun Hin Hback Hrec.
  destruct v; run; in_trace; cbn in *;
    repeat match goal with
    | H1 : ?x = _, H2 : context [?x] |- _ => rewrite H1 in H2; cbn in H2
    end; simplify_eq; try congruence.
Qed.

(** C2. Restart and Signal always return, and every RPC they issue names
    the allocation of the URL path, whatever the body decodes to. *)
Theorem rpc_names_path_allocation (id : string) (req : Request) (h : Heap) :
  (is_Some (allocRestart id req h) ∧ is_Some (allocSignal id req h)) ∧
  ∀ (r : Value * option error) (h' : Heap) (tr : list Event)
    (t : Transport) (method : string) (args : RPCArgs),
    allocRestart id req h = Some (r, h', tr) ∨ allocSignal id req h = Some (r, h', tr) →
    EvRPC t method args ∈ tr →
    args_AllocID args = Some id.
Proof.
  split.
  - split; [apply (run_verb_total OpRestart)|apply (run_verb_total OpSignal)].
  - intros r h' tr t method args [Hrun|Hrun] Hin; run; in_trace; done.
Qed.


(** C4. A snapshot whose migrate token does not validate returns
    [ErrPermissionDenied]; the token check is the only call it made: no
    routing, no file system, no RPC. *)
Theorem snapshot_bad_token (id : string) (req : Request) (h : Heap) :
  ValidateMigrateToken id (parseToken req "") = false →
  allocSnapshot id req h
  = Some ((VNil, Some ErrPermissionDenied), h,
          [EvValidateMigrateToken id (parseToken req "")]).
Proof. intros Hv. unfold allocSnapshot. cbn. by rewrite Hv. Qed.

(** C5. What the snapshot handler returns once the token is valid: when the
    file system of the allocation cannot be had, the error
    "allocation not found" made by [fmt.Errorf], which carries no status
    code (so no 404); when streaming fails, an error without a code whose
    message ends with the cause. *)
Theorem snapshot_errors (id : string) (req : Request) (h : Heap) :
  ValidateMigrateToken id (parseToken req "") = true →
  (∀ (fs : option AllocFS) (e : error),
     GetAllocFS id = (fs, Some e) →
     allocSnapshot id req h
     = Some ((VNil, Some (Errorf allocNotFoundErr)), h,
             [EvValidateMigrateToken id (parseToken req ""); EvGetAllocFS id]) ∧
     Code (Errorf allocNotFoundErr) = None) ∧
  (∀ (fs : AllocFS) (e : error),
     GetAllocFS id = (Some fs, None) →
     AllocFS_Snapshot fs = Some e →
     allocSnapshot id req h
     = Some ((VNil, Some (Errorf ("error making snapshot: " +:+ Error e))), h,
             [EvValidateMigrateToken id (parseToken req ""); EvGetAllocFS id;
              EvSnapshot fs])).
Proof.
  intros Hv. split.
  - intros fs e Hfs. split; [|done].
    unfold allocSnapshot, emit, mbind, M_bind. cbn. by rewrite Hv, Hfs.
  - intros fs e Hfs Hsnap.
    unfold allocSnapshot, emit, mbind, M_bind. cbn. by rewrite Hv, Hfs, Hsnap.
Qed.

(** C8. The restart handler never looks at the method: whenever the body
    decodes and some route exists it issues its RPC, for GET as for POST. *)
Theorem restart_never_checks_method
    (id : string) (req : Request) (h : Heap) (name : string) :
  json_Decode (Body req) "" = (name, None) →
  rpcHandlerForAlloc id ≠ (false, false, false) →
  ∃ (r : Value * option error) (h' : Heap) (tr : list Event),
    allocRestart id req h = Some (r, h', tr) ∧
    ∃ (t : Transport) (method : string) (args : RPCArgs), EvRPC t method args ∈ tr.
Proof.
  intros Hd Hroute. unfold allocRestart. rewrite Hd.
  unfold resolveAlloc, rpc, emit, mbind, M_bind, mret, M_ret.
  destruct (rpcHandlerForAlloc id) as [[[] []] []]; try done; cbn;
    repeat (step; cbn in *; simplify_eq);
    do 3 eexists; (split; [reflexivity|]); do 3 eexists;
    apply list_elem_of_further, list_elem_of_here.
Qed.

(** C10. A restart whose body does not decode, the empty body included,
    returns the error of the decoder as it is and calls nothing: no
    routing and no RPC. *)
Theorem restart_body_is_mandatory
    (id : string) (req : Request) (h : Heap) (name : string) (e : error) :
  json_Decode (Body req) "" = (name, Some e) →
  allocRestart id req h = Some ((VNil, Some e), h, []).
Proof. intros Hd. unfold allocRestart. by rewrite Hd. Qed.

(** *** Running the heap operations *)

Lemma bind_run {A B : Type} (m : M A) (f : A → M B) (h h1 : Heap) (a : A) (t1 : list Event) :
  m h = Some (a, h1, t1) →
  (m ≫= f) h = (λ '(b, h2, t2), (b, h2, t1 ++ t2)) <$> f a h1.
Proof.
  intros Hm. unfold mbind, M_bind. rewrite Hm.
  destruct (f a h1) as [[[b h2] t2]|]; reflexivity.
Qed.

Lemma load_alloc_run (h : Heap) (p : loc) (a : Allocation) :
  allocs h !! p = Some a → load_alloc p h = Some (a, h, []).
Proof. intros Hp. unfold load_alloc, get_heap, mbind, M_bind. by rewrite Hp. Qed.

Lemma load_job_run (h : Heap) (j : loc) (jb : Job) :
  jobs h !! j = Some jb → load_job j h = Some (jb, h, []).
Proof. intros Hj. unfold load_job, get_heap, mbind, M_bind. by rewrite Hj. Qed.

Lemma Allocation_SetEventDisplayMessages_run (h : Heap) (p : loc) (a : Allocation) :
  allocs h !! p = Some a →
  Allocation_SetEventDisplayMessages p h
  = Some (tt,
          {| allocs := <[p := {| Alloc_Job := Alloc_Job a;
                                 Alloc_TaskStates := setDisplayMsg (Alloc_TaskStates a) |}]>
                         (allocs h);
             jobs := jobs h; stubs := stubs h |}, []).
Proof.
  intros Hp. unfold Allocation_SetEventDisplayMessages.
  rewrite (bind_run _ _ _ _ _ _ (load_alloc_run _ _ _ Hp)). reflexivity.
Qed.

Lemma Allocation_Copy_run (h : Heap) (p j : loc) (a : Allocation) (jb : Job) :
  allocs h !! p = Some a → Alloc_Job a = Some j → jobs h !! j = Some jb →
  Allocation_Copy p h
  = Some (fresh (dom (allocs h)),
          {| allocs := <[fresh (dom (allocs h)) :=
                           {| Alloc_Job := Some (fresh (dom (jobs h)));
                              Alloc_TaskStates := Alloc_TaskStates a |}]> (allocs h);
             jobs := <[fresh (dom (jobs h)) := jb]> (jobs h);
             stubs := stubs h |}, [EvAllocCopy p]).
Proof.
  intros Hp Hj Hjb. unfold Allocation_Copy.
  rewrite (bind_run _ _ _ _ _ _ (load_alloc_run _ _ _ Hp)). rewrite Hj.
  unfold mbind, M_bind, emit. rewrite (load_job_run _ _ _ Hjb). reflexivity.
Qed.

Lemma set_Job_Payload_run (h : Heap) (p j : loc) (a : Allocation) (jb : Job) (decoded : bytes) :
  allocs h !! p = Some a → Alloc_Job a = Some j → jobs h !! j = Some jb →
  set_Job_Payload p decoded h
  = Some (tt, {| allocs := allocs h;
                 jobs := <[j := {| Payload := decoded |}]> (jobs h);
                 stubs := stubs h |}, []).
Proof.
  intros Hp Hj Hjb. unfold set_Job_Payload.
  rewrite (bind_run _ _ _ _ _ _ (load_alloc_run _ _ _ Hp)). rewrite Hj.
  rewrite (bind_run _ _ _ _ _ _ (load_job_run _ _ _ Hjb)). reflexivity.
Qed.

Lemma fresh_loc_unused {V : Type} (m : gmap loc V) : m !! fresh (dom m) = None.
Proof. apply not_elem_of_dom, is_fresh. Qed.


(** Up to the point where it has the allocation in hand, [allocGet] has
    called the RPC and set the response meta data. *)
Lemma allocGet_found (id : string) (req : Request) (h h1 : Heap)
    (out : SingleAllocResponse) (p : loc) (a : Allocation) :
  GetAlloc_replies id req h h1 out →
  Alloc out = Some p → allocs h1 !! p = Some a →
  allocGet id req h
  = (λ '(b, h2, t2), (b, h2, GetAlloc_trace id req out ++ t2)) <$>
    ((payload ← match Alloc_Job a with
                | None => mret []
                | Some j => jb ← load_job j; mret (Payload jb)
                end;
      if negb (Nat.eqb (length payload) 0) then
        emit (EvSnappyDecode payload);;
        let '(decoded, err) := snappy_Decode payload in
        match err with
        | Some e => mret (VNil, Some e)
        | None =>
          alloc ← Allocation_Copy p;
          set_Job_Payload alloc decoded;;
          Allocation_SetEventDisplayMessages alloc;;
          mret (VAlloc alloc, None)
        end
      else
        Allocation_SetEventDisplayMessages p;;
        mret (VAlloc p, None)) h1).
Proof.
  intros (Hm & Hp & Hrpc) Hout Ha. unfold allocGet, GetAlloc_trace.
  rewrite Hm. replace (negb ("GET" =? "GET")%string) with false by reflexivity. cbv iota.
  destruct (parse req zeroQueryOptions) as [qo handled]. cbn in Hp, Hrpc |- *. subst handled.
  unfold rpc at 1. unfold mbind at 1. unfold M_bind at 1. rewrite Hrpc.
  rewrite Hout.
  unfold mbind at 1. unfold M_bind at 1. unfold emit at 1.
  rewrite (bind_run _ _ _ _ _ _ (load_alloc_run _ _ _ Ha)).
  match goal with |- context [mbind ?f ?m h1] => destruct (mbind f m h1) as [[[b h2] t2]|] end;
    reflexivity.
Qed.

(** C9. A Get of an allocation that has no job, or whose job has an empty
    payload, returns the very allocation object of the RPC reply: nothing
    is decoded, nothing is copied, the jobs and the stubs are as they were,
    and the only write is the display messages that Get computes on every
    allocation it returns. *)
Theorem get_without_payload (id : string) (req : Request) (h h1 : Heap)
    (out : SingleAllocResponse) (p : loc) (a : Allocation) :
  GetAlloc_replies id req h h1 out →
  Alloc out = Some p → allocs h1 !! p = Some a →
  (Alloc_Job a = None ∨
   ∃ (j : loc) (jb : Job), Alloc_Job a = Some j ∧ jobs h1 !! j = Some jb ∧ Payload jb = []) →
  allocGet id req h
  = Some ((VAlloc p, None),
          {| allocs := <[p := {| Alloc_Job := Alloc_Job a;
                                 Alloc_TaskStates := setDisplayMsg (Alloc_TaskStates a) |}]>
                         (allocs h1);
             jobs := jobs h1; stubs := stubs h1 |},
          GetAlloc_trace id req out).
Proof.
  intros Hget Hout Ha Hjob.
  rewrite (allocGet_found _ _ _ _ _ _ _ Hget Hout Ha).
  assert (Hpayload :
    (match Alloc_Job a with
     | None => mret []
     | Some j => jb ← load_job j; mret (Payload jb)
     end : M bytes) h1 = Some ([], h1, [])).
  { destruct Hjob as [->|(j & jb & -> & Hj & Hnil)]; [reflexivity|].
    rewrite (bind_run _ _ _ _ _ _ (load_job_run _ _ _ Hj)). by rewrite Hnil. }
  rewrite (bind_run _ _ _ _ _ _ Hpayload). cbn [length Nat.eqb negb].
  rewrite (bind_run _ _ _ _ _ _ (Allocation_SetEventDisplayMessages_run _ _ _ Ha)).
  reflexivity.
Qed.

(** C6. A Get of an allocation whose job payload is not empty and decodes
    returns a new allocation object with a new job whose payload is the
    decoded bytes; the allocation and the job of the RPC reply, and every
    other object of the heap, are left as they were. *)
Theorem get_with_payload (id : string) (req : Request) (h h1 : Heap)
    (out : SingleAllocResponse) (p j : loc) (a : Allocation) (jb : Job) (decoded : bytes) :
  GetAlloc_replies id req h h1 out →
  Alloc out = Some p → allocs h1 !! p = Some a →
  Alloc_Job a = Some j → jobs h1 !! j = Some jb →
  Payload jb ≠ [] →
  snappy_Decode (Payload jb) = (decoded, None) →
  ∃ (p' j' : loc) (h2 : Heap),
    allocGet id req h
    = Some ((VAlloc p', None), h2,
            GetAlloc_trace id req out ++ [EvSnappyDecode (Payload jb); EvAllocCopy p]) ∧
    p' ≠ p ∧ j' ≠ j ∧
    allocs h2 !! p' = Some {| Alloc_Job := Some j';
                              Alloc_TaskStates := setDisplayMsg (Alloc_TaskStates a) |} ∧
    jobs h2 !! j' = Some {| Payload := decoded |} ∧
    allocs h2 !! p = Some a ∧
    jobs h2 !! j = Some jb ∧
    allocs h1 ⊆ allocs h2 ∧ jobs h1 ⊆ jobs h2 ∧ stubs h2 = stubs h1.
Proof.
  intros Hget Hout Ha Hjob Hj Hne Hdec.
  set (p' := fresh (dom (allocs h1))). set (j' := fresh (dom (jobs h1))).
  assert (Hp' : allocs h1 !! p' = None) by apply fresh_loc_unused.
  assert (Hj' : jobs h1 !! j' = None) by apply fresh_loc_unused.
  exists p', j'.
  eexists. split.
  - rewrite (allocGet_found _ _ _ _ _ _ _ Hget Hout Ha). rewrite Hjob.
    assert (Hpayload : (jb ← load_job j; mret (Payload jb)) h1 = Some (Payload jb, h1, [])).
    { by rewrite (bind_run _ _ _ _ _ _ (load_job_run _ _ _ Hj)). }
    rewrite (bind_run _ _ _ _ _ _ Hpayload).
    destruct (Payload jb) as [|b0 bs] eqn:Hpl; [done|]. cbn [length Nat.eqb negb].
    unfold emit at 1. unfold mbind at 1. unfold M_bind at 1.
    rewrite Hdec.
    rewrite (bind_run _ _ _ _ _ _ (Allocation_Copy_run _ _ _ _ _ Ha Hjob Hj)).
    erewrite (bind_run (set_Job_Payload _ _)); cycle 1.
    { eapply set_Job_Payload_run; [apply lookup_insert_eq|reflexivity|apply lookup_insert_eq]. }
    erewrite (bind_run (Allocation_SetEventDisplayMessages _)); cycle 1.
    { eapply Allocation_SetEventDisplayMessages_run. apply lookup_insert_eq. }
    cbn. reflexivity.
  - cbn. rewrite !insert_insert_eq.
    assert (p' ≠ p) by congruence. assert (j' ≠ j) by congruence.
    rewrite !lookup_insert_eq, !lookup_insert_ne by done.
    repeat split; try done; by apply insert_subseteq.
Qed.


(** *** The loop over the list stubs *)




(** *** Paths *)

Lemma strip_prefix_app (prefix s : string) : strip_prefix prefix (prefix +:+ s) = Some s.
Proof.
  induction prefix as [|a prefix IH]; [by destruct s|].
  simpl. by rewrite Ascii.eqb_refl.
Qed.

Lemma TrimPrefix_app (prefix s : string) : TrimPrefix (prefix +:+ s) prefix = s.
Proof. unfold TrimPrefix. by rewrite strip_prefix_app. Qed.

Lemma Split_length (s : string) (sep : ascii) :
  length (Split s sep) = S (count_byte sep s).
Proof.
  induction s as [|c s IH]; [done|]. simpl.
  destruct (Ascii.eqb c sep); simpl; [by rewrite IH|].
  destruct (Split s sep) as [|t ts]; [done|]. exact IH.
Qed.

Lemma Split_no_sep (s : string) (sep : ascii) :
  count_byte sep s = 0%nat → Split s sep = [s].
Proof.
  induction s as [|c s IH]; [done|]. simpl.
  destruct (Ascii.eqb c sep); [done|]. intros Hs. by rewrite (IH Hs).
Qed.

Lemma Split_app (a b : string) (sep : ascii) :
  count_byte sep a = 0%nat → Split (a +:+ String sep b) sep = a :: Split b sep.
Proof.
  induction a as [|c a IH]; simpl.
  - intros _. by rewrite Ascii.eqb_refl.
  - destruct (Ascii.eqb c sep); [done|]. intros Ha. by rewrite (IH Ha).
Qed.

Lemma Split_two (a b : string) :
  count_byte slash a = 0%nat → count_byte slash b = 0%nat →
  Split (a +:+ "/" +:+ b) slash = [a; b].
Proof. intros Ha Hb. change ("/" +:+ b) with (String slash b). by rewrite Split_app, Split_no_sep. Qed.

(** X1. A path [/v1/client/allocation/<id>/<action>] whose id has no slash
    reaches the handler of the action, with that id as the allocation. *)
Theorem client_paths_reach_their_handler (id action : string) (req : Request) :
  count_byte slash id = 0%nat →
  URLPath req = "/v1/client/allocation/" +:+ id +:+ "/" +:+ action →
  (action = "stats" → ClientAllocRequest req = allocStats id req) ∧
  (action = "restart" → ClientAllocRequest req = allocRestart id req) ∧
  (action = "gc" → ClientAllocRequest req = allocGC id req) ∧
  (action = "signal" → ClientAllocRequest req = allocSignal id req) ∧
  (action = "snapshot" → agent_client = true →
   ClientAllocRequest req = allocSnapshot id req).
Proof.
  intros Hid Hpath.
  assert (Hroute : ∀ a : string, action = a → count_byte slash a = 0%nat →
            Split (TrimPrefix (URLPath req) "/v1/client/allocation/") slash = [id; a]).
  { intros a <- Ha. rewrite Hpath, TrimPrefix_app. by apply Split_two. }
  repeat split; intros Ha; unfold ClientAllocRequest;
    rewrite (Hroute _ Ha eq_refl); cbn; try done.
  intros ->. done.
Qed.

(** X2. Under [/v1/client/allocation/] a rest that does not hold exactly
    one slash, or whose second segment is none of the five actions, is
    answered 404 "resource not found" and nothing is called. *)
Theorem client_paths_not_found (rest : string) (req : Request) (h : Heap) :
  URLPath req = "/v1/client/allocation/" +:+ rest →
  count_byte slash rest ≠ 1%nat ∨
  (∃ id action : string,
     rest = id +:+ "/" +:+ action ∧
     count_byte slash id = 0%nat ∧ count_byte slash action = 0%nat ∧
     action ∉ ["stats"; "snapshot"; "restart"; "gc"; "signal"]) →
  ClientAllocRequest req h = Some ((VNil, Some (CodedError 404 resourceNotFoundErr)), h, []).
Proof.
  intros Hpath Hrest. unfold ClientAllocRequest. rewrite Hpath, TrimPrefix_app.
  destruct Hrest as [Hn|(id & action & -> & Hid & Ha & Hunknown)].
  - pose proof (Split_length rest slash) as Hlen.
    destruct (Split rest slash) as [|t1 [|t2 [|t3 ts]]]; try done.
    cbn in Hlen. congruence.
  - rewrite (Split_two _ _ Hid Ha).
    repeat match goal with
    | |- context [String.eqb action ?a] =>
      let E := fresh in
      destruct (String.eqb_spec action a) as [E|E];
        [subst action; exfalso; apply Hunknown; set_solver|]
    end. done.
Qed.

(** X3. A path [/v1/allocation/<id>] whose id has no slash reaches
    [allocGet] with that id, and [/v1/allocation/<id>/stop] reaches
    [allocStop]. *)
Theorem alloc_paths_reach_their_handler (id : string) (req : Request) :
  count_byte slash id = 0%nat →
  (URLPath req = "/v1/allocation/" +:+ id → AllocSpecificRequest_handler req = allocGet id req) ∧
  (URLPath req = "/v1/allocation/" +:+ id +:+ "/stop" →
   AllocSpecificRequest_handler req = allocStop id req).
Proof.
  intros Hid. split; intros Hpath; unfold AllocSpecificRequest_handler;
    rewrite Hpath, TrimPrefix_app.
  - by rewrite Split_no_sep.
  - change (id +:+ "/stop") with (id +:+ "/" +:+ "stop"). by rewrite Split_two.
Qed.

(** X4. Under [/v1/allocation/] an action other than [stop], or a rest with
    two slashes or more, is answered 404 "resource not found" and nothing
    is called. *)
Theorem alloc_paths_not_found (rest : string) (req : Request) (h : Heap) :
  URLPath req = "/v1/allocation/" +:+ rest →
  (2 ≤ count_byte slash rest)%nat ∨
  (∃ id action : string,
     rest = id +:+ "/" +:+ action ∧
     count_byte slash id = 0%nat ∧ count_byte slash action = 0%nat ∧ action ≠ "stop") →
  AllocSpecificRequest_handler req h
  = Some ((VNil, Some (CodedError 404 resourceNotFoundErr)), h, []).
Proof.
  intros Hpath Hrest. unfold AllocSpecificRequest_handler. rewrite Hpath, TrimPrefix_app.
  destruct Hrest as [Hn|(id & action & -> & Hid & Ha & Hstop)].
  - pose proof (Split_length rest slash) as Hlen.
    destruct (Split rest slash) as [|t1 [|t2 [|t3 ts]]]; try done; cbn in Hlen; lia.
  - rewrite (Split_two _ _ Hid Ha).
    by destruct (String.eqb_spec action "stop").
Qed.

(** X5. On an agent that runs no client the snapshot endpoint answers
    [clientNotRunning] and nothing is called: the migrate token is not even
    checked. *)
Theorem snapshot_needs_a_client (id : string) (req : Request) (h : Heap) :
  agent_client = false →
  count_byte slash id = 0%nat →
  URLPath req = "/v1/client/allocation/" +:+ id +:+ "/snapshot" →
  ClientAllocRequest req h = Some ((VNil, Some clientNotRunning), h, []).
Proof.
  intros Hclient Hid Hpath. unfold ClientAllocRequest.
  rewrite Hpath, TrimPrefix_app.
  change (id +:+ "/snapshot") with (id +:+ "/" +:+ "snapshot").
  rewrite Split_two by done. cbn. by rewrite Hclient.
Qed.

(** *** The client verbs *)

(** Rewrite with the recorded answers of the agent. *)
Ltac recall :=
  repeat match goal with
  | H1 : ?x = _, H2 : context [?x] |- _ => rewrite H1 in H2; cbn in H2
  | H1 : ?x = _ |- context [?x] => rewrite H1; cbn
  end.

(** X6. Each of the five verbs issues at most one RPC, through the entry
    point that the first set flag of the routing oracle stands for: the
    local client with method [Allocations.<verb>], else the client's RPC to
    the servers, else the server's, both with [ClientAllocations.<verb>]. *)
Theorem verbs_call_the_selected_transport
    (v : Verb) (id : string) (req : Request) (h h' : Heap) (r : Value * option error)
    (tr : list Event) :
  run_verb v id req h = Some (r, h', tr) →
  (length (List.filter is_rpc tr) ≤ 1)%nat ∧
  ∀ (t : Transport) (method : string) (args : RPCArgs),
    EvRPC t method args ∈ tr → selected v (verb_route v id req) = Some (t, method).
Proof.
  intros Hrun. unfold selected, verb_route.
  destruct v; run; (split; [cbn; lia|]); intros; in_trace; recall; done.
Qed.

(** X7. The error a verb returns has the message of the error its RPC
    gave, and is that very error when the verb does not recognise it; when
    the RPC gave no error the verb returns none. *)
Theorem verbs_keep_the_error_message
    (v : Verb) (id : string) (req : Request) (h h' : Heap) (r : Value * option error)
    (tr : list Event) (t : Transport) (method : string) (args : RPCArgs) :
  run_verb v id req h = Some (r, h', tr) →
  EvRPC t method args ∈ tr →
  match backend_error v t method args h with
  | None => r.2 = None
  | Some e =>
    ∃ e' : error, r.2 = Some e' ∧ Error e' = Error e ∧ (recognised v e = false → e' = e)
  end.
Proof.
  intros Hrun Hin. unfold backend_error, recognised.
  destruct v; run; in_trace; recall; simplify_eq; try done;
    eexists; (split; [reflexivity|]); split; try done; congruence.
Qed.

(** X8. Once its RPC is back a verb returns, with or without an error, the
    reply for Restart and Signal, the inner statistics for Stats and no
    value for the two collections; it leaves the heap as the RPC left it. *)
Theorem verbs_return_the_reply
    (v : Verb) (id : string) (req : Request) (h h' : Heap) (r : Value * option error)
    (tr : list Event) (t : Transport) (method : string) (args : RPCArgs) :
  run_verb v id req h = Some (r, h', tr) →
  EvRPC t method args ∈ tr →
  r.1 = reply_value v t method args h ∧ h' = reply_heap v t method args h.
Proof.
  intros Hrun Hin. unfold reply_value, reply_heap.
  destruct v; run; in_trace; recall; done.
Qed.

(** X9. Turning the recognised errors into 404 a second time changes
    nothing, whatever the recogniser: the 404 keeps the message, so a
    second pass can only build the same 404 again. *)
Theorem to404_idempotent (recognised_by : error → bool) (rpcErr : option error) :
  to404 recognised_by (to404 recognised_by rpcErr) = to404 recognised_by rpcErr.
Proof.
  destruct rpcErr as [e|]; [|done]. cbn.
  destruct (recognised_by e) eqn:He; cbn.
  - by destruct (recognised_by (CodedError 404 (Error e))).
  - by rewrite He.
Qed.

(** X10. A signal whose body does not decode is answered 400 with the
    message "Failed to decode body: " followed by the decoder's, and
    nothing is called: no routing and no RPC. *)
Theorem signal_body_must_decode
    (id : string) (req : Request) (h : Heap) (args : AllocSignalRequest) (e : error) :
  Method req = "POST" ∨ Method req = "PUT" →
  decodeBody req {| Signal_AllocID := ""; Signal_Fields := zeroSignalFields;
                    Signal_QueryOptions := zeroQueryOptions |} = (args, Some e) →
  allocSignal id req h
  = Some ((VNil, Some (CodedError 400 ("Failed to decode body: " +:+ Error e))), h, []).
Proof.
  intros Hm Hd. unfold allocSignal. rewrite Hd.
  by destruct Hm as [->| ->].
Qed.

(** X11. The RPC of a restart carries the task name exactly as the body
    decoded it, the empty name when the body gives none, with the query
    options of [parse]. *)
Theorem restart_sends_the_decoded_task
    (id : string) (req : Request) (h h' : Heap) (r : Value * option error)
    (tr : list Event) (t : Transport) (method : string) (args : RPCArgs) (name : string) :
  json_Decode (Body req) "" = (name, None) →
  allocRestart id req h = Some (r, h', tr) →
  EvRPC t method args ∈ tr →
  args = ArgsAllocRestart {| Restart_AllocID := id;
                             Restart_TaskName := name;
                             Restart_QueryOptions := (parse req zeroQueryOptions).1 |}.
Proof.
  intros Hd Hrun Hin. run; in_trace; try done;
    match goal with
    | E : negb (String.eqb _ "") = false |- _ =>
      apply negb_false_iff, String.eqb_eq in E; by subst
    end.
Qed.

(** X12. The RPC of a signal carries the fields of the decoded body
    untouched; its query options are those [parse] makes of the body's, so
    the request wins over the body there too. *)
Theorem signal_sends_the_decoded_fields
    (id : string) (req : Request) (h h' : Heap) (r : Value * option error)
    (tr : list Event) (t : Transport) (method : string) (args : RPCArgs)
    (body : AllocSignalRequest) :
  decodeBody req {| Signal_AllocID := ""; Signal_Fields := zeroSignalFields;
                    Signal_QueryOptions := zeroQueryOptions |} = (body, None) →
  allocSignal id req h = Some (r, h', tr) →
  EvRPC t method args ∈ tr →
  args = ArgsAllocSignal
           {| Signal_AllocID := id;
              Signal_Fields := Signal_Fields body;
              Signal_QueryOptions := (parse req (Signal_QueryOptions body)).1 |}.
Proof. intros Hd Hrun Hin. run; in_trace; done. Qed.

(** X13. GarbageCollectAll asks the routing oracle about the [node_id] of
    the query before anything else and sends that node in its RPC; a query
    without [node_id] stands for the empty node. *)
Theorem gc_all_goes_by_the_query
    (req : Request) (h h' : Heap) (r : Value * option error) (tr : list Event) :
  ClientGCRequest req h = Some (r, h', tr) →
  ∃ node : string,
    (URLQuery req !! "node_id" = None → node = "") ∧
    (∀ (x : string) (xs : list string),
       URLQuery req !! "node_id" = Some (x :: xs) → node = x) ∧
    head tr = Some (EvRpcHandlerForNode node (rpcHandlerForNode node)) ∧
    ∀ (t : Transport) (method : string) (args : RPCArgs),
      EvRPC t method args ∈ tr →
      args = ArgsNodeSpecific {| Node_NodeID := node;
                                 Node_QueryOptions := (parse req zeroQueryOptions).1 |}.
Proof.
  intros Hrun. exists (Values_Get (URLQuery req) "node_id").
  split; [|split].
  - intros Hq. unfold Values_Get. by rewrite Hq.
  - intros x xs Hq. unfold Values_Get. by rewrite Hq.
  - run; (split; [done|]); intros; in_trace; done.
Qed.

(** X14. Stats sends the [task] of the query as its filter, the empty
    filter when the query has none. *)
Theorem stats_filters_by_the_query
    (id : string) (req : Request) (h h' : Heap) (r : Value * option error)
    (tr : list Event) (t : Transport) (method : string) (args : RPCArgs) :
  allocStats id req h = Some (r, h', tr) →
  EvRPC t method args ∈ tr →
  ∃ task : string,
    (URLQuery req !! "task" = None → task = "") ∧
    (∀ (x : string) (xs : list string), URLQuery req !! "task" = Some (x :: xs) → task = x) ∧
    args = ArgsAllocStats {| Stats_AllocID := id;
                             Stats_Task := task;
                             Stats_QueryOptions := (parse req zeroQueryOptions).1 |}.
Proof.
  intros Hrun Hin. exists (Values_Get (URLQuery req) "task").
  split; [|split].
  - intros Hq. unfold Values_Get. by rewrite Hq.
  - intros x xs Hq. unfold Values_Get. by rewrite Hq.
  - run; in_trace; done.
Qed.

(** X15. A stop by POST or PUT never asks the routing oracle: it makes the
    one call [Alloc.Stop] through the agent, for the allocation of the
    path, and returns the response together with the error of the RPC as
    it is, recognised or not. *)
Theorem stop_goes_through_the_agent
    (id : string) (req : Request) (h h1 : Heap) (out : AllocStopResponse)
    (err : option error) :
  Method req = "POST" ∨ Method req = "PUT" →
  rpc_AllocStop Agent_RPC "Alloc.Stop"
    (ArgsAllocStop {| Stop_AllocID := id;
                      Stop_WriteRequest := parseWriteRequest req zeroWriteRequest |})
    zeroAllocStopResponse h = (h1, out, err) →
  allocStop id req h
  = Some ((VAllocStopResponse out, err), h1,
          [EvRPC Agent_RPC "Alloc.Stop"
             (ArgsAllocStop {| Stop_AllocID := id;
                               Stop_WriteRequest := parseWriteRequest req zeroWriteRequest |})]).
Proof.
  intros Hm Hrpc. unfold allocStop, rpc, mbind, M_bind.
  destruct Hm as [->| ->]; cbn; by rewrite Hrpc.
Qed.

(** *** List and Get *)

(** X16. When [parse] reports that it has answered the request itself,
    List and Get return no value and no error, and call nothing. *)
Theorem parse_can_end_the_request (id : string) (req : Request) (h : Heap) :
  Method req = "GET" →
  (parse req zeroQueryOptions).2 = true →
  AllocsRequest req h = Some ((VNil, None), h, []) ∧
  allocGet id req h = Some ((VNil, None), h, []).
Proof.
  intros Hm Hp. unfold AllocsRequest, allocGet. rewrite Hm.
  destruct (parse req zeroQueryOptions) as [qo handled]. cbn in Hp. by subst.
Qed.

(** X17. An error of [Alloc.List] or of [Alloc.GetAlloc] is returned as it
    is, with no value, before the response meta data is set. *)
Theorem list_and_get_pass_rpc_errors
    (id : string) (req : Request) (h : Heap) :
  Method req = "GET" →
  (parse req zeroQueryOptions).2 = false →
  (∀ (h1 : Heap) (out : AllocListResponse) (e : error),
     rpc_AllocList Agent_RPC "Alloc.List"
       (ArgsAllocList {| List_QueryOptions := (parse req zeroQueryOptions).1 |})
       {| Allocations := None; List_QueryMeta := zeroQueryMeta |} h
     = (h1, out, Some e) →
     AllocsRequest req h
     = Some ((VNil, Some e), h1,
             [EvRPC Agent_RPC "Alloc.List"
                (ArgsAllocList {| List_QueryOptions := (parse req zeroQueryOptions).1 |})])) ∧
  (∀ (h1 : Heap) (out : SingleAllocResponse) (e : error),
     rpc_SingleAlloc Agent_RPC "Alloc.GetAlloc"
       (ArgsAllocSpecific {| Specific_AllocID := id;
                             Specific_QueryOptions := (parse req zeroQueryOptions).1 |})
       {| Alloc := None; Single_QueryMeta := zeroQueryMeta |} h
     = (h1, out, Some e) →
     allocGet id req h
     = Some ((VNil, Some e), h1,
             [EvRPC Agent_RPC "Alloc.GetAlloc"
                (ArgsAllocSpecific
                   {| Specific_AllocID := id;
                      Specific_QueryOptions := (parse req zeroQueryOptions).1 |})])).
Proof.
  intros Hm Hp. unfold AllocsRequest, allocGet, rpc, mbind, M_bind. rewrite Hm.
  destruct (parse req zeroQueryOptions) as [qo handled]. cbn in Hp |- *. subst handled.
  split; intros h1 out e Hrpc; by rewrite Hrpc.
Qed.

(** X18. A Get whose RPC succeeds without an allocation is answered 404
    "alloc not found", after the response meta data is set; the heap is as
    the RPC left it. *)
Theorem get_of_a_missing_allocation
    (id : string) (req : Request) (h h1 : Heap) (out : SingleAllocResponse) :
  GetAlloc_replies id req h h1 out →
  Alloc out = None →
  allocGet id req h
  = Some ((VNil, Some (CodedError 404 "alloc not found")), h1, GetAlloc_trace id req out).
Proof.
  intros (Hm & Hp & Hrpc) Hout. unfold allocGet, GetAlloc_trace, rpc, emit, mbind, M_bind.
  rewrite Hm. destruct (parse req zeroQueryOptions) as [qo handled].
  cbn in Hp, Hrpc |- *. subst handled. by rewrite Hrpc, Hout.
Qed.

(** X19. When the payload does not decode, Get returns the error of the
    codec; it has copied nothing and computed no display message: the heap
    is as the RPC left it. *)
Theorem get_of_a_corrupt_payload
    (id : string) (req : Request) (h h1 : Heap) (out : SingleAllocResponse)
    (p j : loc) (a : Allocation) (jb : Job) (partial : bytes) (e : error) :
  GetAlloc_replies id req h h1 out →
  Alloc out = Some p → allocs h1 !! p = Some a →
  Alloc_Job a = Some j → jobs h1 !! j = Some jb →
  Payload jb ≠ [] →
  snappy_Decode (Payload jb) = (partial, Some e) →
  allocGet id req h
  = Some ((VNil, Some e), h1, GetAlloc_trace id req out ++ [EvSnappyDecode (Payload jb)]).
Proof.
  intros Hget Hout Ha Hjob Hj Hne Hdec.
  rewrite (allocGet_found _ _ _ _ _ _ _ Hget Hout Ha). rewrite Hjob.
  assert (Hpayload : (jb ← load_job j; mret (Payload jb)) h1 = Some (Payload jb, h1, [])).
  { by rewrite (bind_run _ _ _ _ _ _ (load_job_run _ _ _ Hj)). }
  rewrite (bind_run _ _ _ _ _ _ Hpayload).
  destruct (Payload jb) as [|b0 bs] eqn:Hpl; [done|]. cbn [length Nat.eqb negb].
  unfold emit at 1. unfold mbind at 1. unfold M_bind at 1.
  by rewrite Hdec.
Qed.

Ltac unfold_heap_ops :=
  unfold Allocation_Copy, set_Job_Payload, Allocation_SetEventDisplayMessages,
    load_alloc, load_job, store_alloc, store_job, get_heap, put_heap, emit, panic,
    mbind, M_bind, mret, M_ret in *.

Ltac heap_step :=
  match goal with
  | H : context [<[?k := ?x]> ?m !! ?k] |- _ => rewrite (lookup_insert_eq m k x) in H
  | H : context [match ?x with _ => _ end] |- _ => destruct x eqn:?
  end.

(** X20. Whatever way a Get ends, it has rewritten no job object and no
    stub, and the only allocation object it may have written is the one it
    returns: every other object is as the RPC left it. *)
Theorem get_writes_only_what_it_returns
    (id : string) (req : Request) (h h1 h2 : Heap) (out : SingleAllocResponse)
    (err : option error) (r : Value * option error) (tr : list Event) :
  Method req = "GET" →
  (parse req zeroQueryOptions).2 = false →
  rpc_SingleAlloc Agent_RPC "Alloc.GetAlloc"
    (ArgsAllocSpecific {| Specific_AllocID := id;
                          Specific_QueryOptions := (parse req zeroQueryOptions).1 |})
    {| Alloc := None; Single_QueryMeta := zeroQueryMeta |} h
  = (h1, out, err) →
  allocGet id req h = Some (r, h2, tr) →
  jobs h1 ⊆ jobs h2 ∧
  stubs h2 = stubs h1 ∧
  ∀ (q : loc) (a : Allocation),
    r.1 ≠ VAlloc q → allocs h1 !! q = Some a → allocs h2 !! q = Some a.
Proof.
  intros Hm Hp Hrpc Hrun. unfold allocGet, rpc in Hrun. rewrite Hm in Hrun.
  destruct (parse req zeroQueryOptions) as [qo handled]. cbn in Hp, Hrpc, Hrun.
  subst handled. unfold_heap_ops. rewrite Hrpc in Hrun. cbn in Hrun.
  repeat (heap_step; cbn in *; simplify_eq).
  all: rewrite ?insert_insert_eq; split; [|split]; try done.
  - apply insert_subseteq, fresh_loc_unused.
  - intros q a0 Hq Hlook. rewrite lookup_insert_ne; [done|congruence].
  - intros q a0 Hq Hlook. rewrite lookup_insert_ne; [done|congruence].
  - intros q a0 Hq Hlook. rewrite lookup_insert_ne; [done|congruence].
Qed.

(** What a projection of a stub that returns has done. *)
Lemma Stub_SetEventDisplayMessages_inv (p : ptr) (h h1 : Heap) (t1 : list Event) :
  Stub_SetEventDisplayMessages p h = Some (tt, h1, t1) →
  ∃ (q : loc) (s : AllocListStub),
    p = Some q ∧ stubs h !! q = Some s ∧ t1 = [] ∧
    h1 = {| allocs := allocs h; jobs := jobs h;
            stubs := <[q := {| Stub_TaskStates := setDisplayMsg (Stub_TaskStates s) |}]>
                       (stubs h) |}.
Proof.
  destruct p as [q|]; [|done]. intros Hrun. exists q.
  unfold Stub_SetEventDisplayMessages, mbind, M_bind, get_heap, put_heap, panic in Hrun.
  destruct (stubs h !! q) as [s|]; [|done]. exists s. by simplify_eq.
Qed.

(** The loop of List on its own: what a run that returns leaves behind. *)
Lemma for_range_frame (l : list ptr) :
  ∀ (h h2 : Heap) (tr : list Event),
    for_range l Stub_SetEventDisplayMessages h = Some (tt, h2, tr) →
    tr = [] ∧ allocs h2 = allocs h ∧ jobs h2 = jobs h ∧
    ∀ q : loc, Some q ∉ l → stubs h2 !! q = stubs h !! q.
Proof.
  induction l as [|x l IH]; intros h h2 tr Hrun.
  - unfold for_range, mret, M_ret in Hrun. by simplify_eq.
  - cbn [for_range] in Hrun. unfold mbind, M_bind in Hrun.
    destruct (Stub_SetEventDisplayMessages x h) as [[[[] h1] t1]|] eqn:Hx; [|done].
    destruct (for_range l Stub_SetEventDisplayMessages h1) as [[[[] h3] t3]|] eqn:Hloop;
      [|done].
    simplify_eq.
    destruct (Stub_SetEventDisplayMessages_inv _ _ _ _ Hx) as (q0 & s & -> & Hs & -> & ->).
    destruct (IH _ _ _ Hloop) as (-> & Ha & Hj & Hframe). cbn in *.
    repeat split; try done.
    intros q [Hne Hq]%not_elem_of_cons. rewrite (Hframe _ Hq).
    apply lookup_insert_ne. congruence.
Qed.

(** X21. A List that returns gives back the slice of the RPC reply, the
    same pointers in the same order (the empty slice for nil); it has
    written no allocation and no job, and no stub outside that slice. *)
Theorem list_writes_only_the_listed_stubs
    (req : Request) (h h1 h2 : Heap) (out : AllocListResponse)
    (r : Value * option error) (tr : list Event) :
  List_replies req h h1 out →
  AllocsRequest req h = Some (r, h2, tr) →
  r = (VAllocStubs (Some (elems (Allocations out))), None) ∧
  tr = List_trace req out ∧
  allocs h2 = allocs h1 ∧ jobs h2 = jobs h1 ∧
  ∀ q : loc, Some q ∉ elems (Allocations out) → stubs h2 !! q = stubs h1 !! q.
Proof.
  intros (Hm & Hp & Hrpc) Hrun. unfold AllocsRequest, List_trace, rpc, emit in *.
  rewrite Hm in Hrun. destruct (parse req zeroQueryOptions) as [qo handled].
  cbn in Hp, Hrpc, Hrun |- *. subst handled.
  unfold mbind at 1, M_bind at 1 in Hrun. rewrite Hrpc in Hrun.
  unfold mbind at 1, M_bind at 1 in Hrun.
  unfold mbind at 1, M_bind at 1 in Hrun.
  replace (elems match Allocations out with Some l => Some l | None => Some [] end)
    with (elems (Allocations out)) in Hrun by by destruct (Allocations out).
  destruct (for_range (elems (Allocations out)) Stub_SetEventDisplayMessages h1)
    as [[[[] h3] t3]|] eqn:Hloop; [|done].
  destruct (for_range_frame _ _ _ _ Hloop) as (-> & Ha & Hj & Hframe).
  unfold mret, M_ret in Hrun. simplify_eq.
  repeat split; try done. by destruct (Allocations out).
Qed.

(** *** Snapshot *)

(** X22. A snapshot is served on the spot: it never asks the routing
    oracle and never issues an RPC, it returns no value and leaves the heap
    alone; its first call is the token check, it asks for the file system
    only with a valid token, and streams only from a file system it got. *)
Theorem snapshot_is_local
    (id : string) (req : Request) (h h' : Heap) (r : Value * option error)
    (tr : list Event) :
  allocSnapshot id req h = Some (r, h', tr) →
  r.1 = VNil ∧ h' = h ∧
  head tr = Some (EvValidateMigrateToken id (parseToken req "")) ∧
  (∀ ev : Event, ev ∈ tr → is_rpc ev = false ∧ is_routing ev = false) ∧
  (EvGetAllocFS id ∈ tr → ValidateMigrateToken id (parseToken req "") = true) ∧
  (∀ fs : AllocFS, EvSnapshot fs ∈ tr →
     ValidateMigrateToken id (parseToken req "") = true ∧
     GetAllocFS id = (Some fs, None)).
Proof.
  intros Hrun. run; repeat split; try done; intros; in_trace;
    rewrite ?negb_true_iff, ?negb_false_iff in *; try done; congruence.
Qed.

(** X23. With a valid token, a file system and a stream that succeeds, the
    snapshot returns neither a value nor an error: the archive went to the
    response. Its calls are the token check, [GetAllocFS] and [Snapshot],
    in that order. *)
Theorem snapshot_streams
    (id : string) (req : Request) (h : Heap) (fs : AllocFS) :
  ValidateMigrateToken id (parseToken req "") = true →
  GetAllocFS id = (Some fs, None) →
  AllocFS_Snapshot fs = None →
  allocSnapshot id req h
  = Some ((VNil, None), h,
          [EvValidateMigrateToken id (parseToken req ""); EvGetAllocFS id; EvSnapshot fs]).
Proof.
  intros Hv Hfs Hsnap. unfold allocSnapshot, emit, mbind, M_bind. cbn.
  by rewrite Hv, Hfs, Hsnap.
Qed.

End Properties.

(** ** The handlers at work on the sample agent *)

Import Sample.

Lemma recognised_errors_become_404_witness :
  @run_verb structs (agent (failing NoNodeConn)) OpGarbageCollectAll "" gc_request empty_heap
  = Some ((no_value, Some (coded 404 "No path to node")), empty_heap,
          [EvRpcHandlerForNode "" (false, true, false);
           EvRPC Client_RPC "ClientAllocations.GarbageCollectAll" gc_args]) ∧
  (no_value, Some (coded 404 "No path to node")).2
  = Some (coded 404 (Error (failed NoNodeConn))).
Proof.
  split; [reflexivity|].
  apply (@recognised_errors_become_404 structs (agent (failing NoNodeConn))
           OpGarbageCollectAll "" gc_request empty_heap empty_heap
           (no_value, Some (coded 404 "No path to node"))
           [EvRpcHandlerForNode "" (false, true, false);
            EvRPC Client_RPC "ClientAllocations.GarbageCollectAll" gc_args]
           Client_RPC "ClientAllocations.GarbageCollectAll" gc_args
           (failed NoNodeConn)).
  - reflexivity.
  - apply list_elem_of_further, list_elem_of_here.
  - reflexivity.
  - reflexivity.
Defined.

(** C1, as stated, fails: GarbageCollectAll hands an "unknown allocation"
    error of its RPC back as it came, with no 404. *)
Lemma gc_all_keeps_unknown_allocation :
  ¬ @both_errors_become_404 structs (agent (failing UnknownAllocation)).
Proof.
  intros Hclaim.
  specialize (Hclaim OpGarbageCollectAll "" gc_request
                empty_heap empty_heap (no_value, Some (failed UnknownAllocation))
                [EvRpcHandlerForNode "" (false, true, false);
                 EvRPC Client_RPC "ClientAllocations.GarbageCollectAll" gc_args]
                Client_RPC "ClientAllocations.GarbageCollectAll" gc_args
                (failed UnknownAllocation) eq_refl).
  discriminate Hclaim; [apply list_elem_of_further, list_elem_of_here|reflexivity..].
Qed.

(** The signal body names [other-alloc]; the RPC names the allocation of
    the path. *)
Lemma rpc_names_path_allocation_witness :
  Signal_AllocID
    (@decodeBody structs (agent healthy)
       (request "POST" "/v1/client/allocation/a1/signal" "{HUP}")
       (@Build_AllocSignalRequest structs "" "" "")).1 = "other-alloc" ∧
  @allocSignal structs (agent healthy) "a1"
    (request "POST" "/v1/client/allocation/a1/signal" "{HUP}") empty_heap
  = Some ((ack 0, None), empty_heap,
          [EvRpcHandlerForAlloc "a1" (true, false, false);
           EvRPC Client_ClientRPC "Allocations.Signal" (signal_args "a1" "{HUP}")]) ∧
  args_AllocID (signal_args "a1" "{HUP}") = Some "a1".
Proof.
  split; [reflexivity|]. split; [reflexivity|].
  apply (proj2 (@rpc_names_path_allocation structs (agent healthy) "a1"
                  (request "POST" "/v1/client/allocation/a1/signal" "{HUP}") empty_heap)
           (ack 0, None) empty_heap
           [EvRpcHandlerForAlloc "a1" (true, false, false);
            EvRPC Client_ClientRPC "Allocations.Signal" (signal_args "a1" "{HUP}")]
           Client_ClientRPC "Allocations.Signal" (signal_args "a1" "{HUP}")).
  - right. reflexivity.
  - apply list_elem_of_further, list_elem_of_here.
Defined.



Lemma snapshot_bad_token_witness :
  @allocSnapshot structs (agent bad_token) "a1"
    (request "GET" "/v1/client/allocation/a1/snapshot" "") empty_heap
  = Some ((no_value, Some (failed PermissionDenied)), empty_heap,
          [EvValidateMigrateToken "a1" ""]).
Proof.
  apply (@snapshot_bad_token structs (agent bad_token) "a1"
           (request "GET" "/v1/client/allocation/a1/snapshot" "") empty_heap).
  reflexivity.
Defined.

(** With a good token and no file system, the error has the message
    "allocation not found" and no status code. *)
Lemma snapshot_errors_witness :
  @allocSnapshot structs (agent no_fs) "a1"
    (request "GET" "/v1/client/allocation/a1/snapshot" "") empty_heap
  = Some ((no_value, Some (plain "allocation not found")), empty_heap,
          [EvValidateMigrateToken "a1" ""; EvGetAllocFS "a1"]) ∧
  Code (plain "allocation not found") = None.
Proof.
  apply (proj1 (@snapshot_errors structs (agent no_fs) "a1"
                  (request "GET" "/v1/client/allocation/a1/snapshot" "") empty_heap
                  eq_refl)
           None (failed DiskError)).
  reflexivity.
Defined.

(** A GET on the restart endpoint restarts the allocation. *)
Lemma restart_never_checks_method_witness :
  Method (request "GET" "/v1/client/allocation/a1/restart" "{}") = "GET" ∧
  ∃ (r : Value * option error) (h' : Heap) (tr : list Event),
    @allocRestart structs (agent healthy) "a1"
      (request "GET" "/v1/client/allocation/a1/restart" "{}") empty_heap
    = Some (r, h', tr) ∧
    ∃ (t : Transport) (method : string) (args : RPCArgs), EvRPC t method args ∈ tr.
Proof.
  split; [reflexivity|].
  apply (@restart_never_checks_method structs (agent healthy) "a1"
           (request "GET" "/v1/client/allocation/a1/restart" "{}") empty_heap "").
  - reflexivity.
  - discriminate.
Defined.

(** The same GET through the router of the client endpoints. *)
Lemma restart_by_GET :
  @ClientAllocRequest structs (agent healthy)
    (request "GET" "/v1/client/allocation/a1/restart" "{}") empty_heap
  = Some ((ack 0, None), empty_heap,
          [EvRpcHandlerForAlloc "a1" (true, false, false);
           EvRPC Client_ClientRPC "Allocations.Restart" (restart_args "a1")]).
Proof. reflexivity. Qed.

(** A restart without a body stops at the decoder. *)
Lemma restart_body_is_mandatory_witness :
  @allocRestart structs (agent healthy) "a1"
    (request "PUT" "/v1/client/allocation/a1/restart" "") empty_heap
  = Some ((no_value, Some (failed EOF)), empty_heap, []).
Proof.
  apply (@restart_body_is_mandatory structs (agent healthy) "a1"
           (request "PUT" "/v1/client/allocation/a1/restart" "") empty_heap "").
  reflexivity.
Defined.

Lemma get_with_payload_witness :
  ∃ (p' j' : loc) (h2 : Heap),
    @allocGet structs (agent (finding 1%positive)) "a1" (request "GET" "/v1/allocation/a1" "")
      stored_heap
    = Some ((VAlloc p', None), h2,
            @GetAlloc_trace structs (agent (finding 1%positive)) "a1" (request "GET" "/v1/allocation/a1" "") (get_reply 1%positive)
            ++ [EvSnappyDecode [Byte.x02; Byte.x68; Byte.x69]; EvAllocCopy 1%positive]) ∧
    p' ≠ 1%positive ∧ j' ≠ 1%positive ∧
    allocs h2 !! p'
    = Some {| Alloc_Job := Some j';
              Alloc_TaskStates := display (Alloc_TaskStates (alloc_of_job 1%positive)) |} ∧
    jobs h2 !! j' = Some {| Payload := [Byte.x68; Byte.x69] |} ∧
    allocs h2 !! 1%positive = Some (alloc_of_job 1%positive) ∧
    jobs h2 !! 1%positive = Some {| Payload := [Byte.x02; Byte.x68; Byte.x69] |} ∧
    allocs stored_heap ⊆ allocs h2 ∧ jobs stored_heap ⊆ jobs h2 ∧
    stubs h2 = stubs stored_heap.
Proof.
  apply (@get_with_payload structs (agent (finding 1%positive)) "a1"
           (request "GET" "/v1/allocation/a1" "") stored_heap stored_heap (get_reply 1%positive)
           1%positive 1%positive (alloc_of_job 1%positive)
           {| Payload := [Byte.x02; Byte.x68; Byte.x69] |} [Byte.x68; Byte.x69]).
  - repeat split.
  - reflexivity.
  - reflexivity.
  - reflexivity.
  - reflexivity.
  - discriminate.
  - reflexivity.
Defined.

Lemma get_without_payload_witness :
  @allocGet structs (agent (finding 2%positive)) "a2" (request "GET" "/v1/allocation/a2" "")
    stored_heap
  = Some ((VAlloc 2%positive, None),
          {| allocs :=
               <[2%positive :=
                   {| Alloc_Job := Alloc_Job (alloc_of_job 2%positive);
                      Alloc_TaskStates := display (Alloc_TaskStates (alloc_of_job 2%positive)) |}]>
                 (allocs stored_heap);
             jobs := jobs stored_heap; stubs := stubs stored_heap |},
          @GetAlloc_trace structs (agent (finding 2%positive)) "a2" (request "GET" "/v1/allocation/a2" "") (get_reply 2%positive)).
Proof.
  apply (@get_without_payload structs (agent (finding 2%positive)) "a2"
           (request "GET" "/v1/allocation/a2" "") stored_heap stored_heap (get_reply 2%positive)
           2%positive (alloc_of_job 2%positive)).
  - repeat split.
  - reflexivity.
  - reflexivity.
  - right. exists 2%positive, {| Payload := [] |}. repeat split.
Defined.


(** A list of one stub: its display message is set in the heap. *)
Lemma list_one_stub :
  ∃ h2 : Heap,
    @AllocsRequest structs (agent (listing (Some [Some 5%positive])))
      (request "GET" "/v1/allocations" "") stored_heap
    = Some ((VAllocStubs (Some [Some 5%positive]), None), h2,
            @List_trace structs (agent (listing (Some [Some 5%positive])))
              (request "GET" "/v1/allocations" "") (list_reply (Some [Some 5%positive]))) ∧
    stubs h2 !! 5%positive = Some {| Stub_TaskStates := [("Started", "Task Started")] |}.
Proof. eexists. split; vm_compute; reflexivity. Qed.

(** *** The routers, and three runs from end to end *)

Lemma signal_through_the_servers :
  @ClientAllocRequest structs (agent remote)
    (request "POST" "/v1/client/allocation/abc123/signal" "{SIGHUP}") empty_heap
  = Some ((ack 0, None), empty_heap,
          [EvRpcHandlerForAlloc "abc123" (false, true, false);
           EvRPC Client_RPC "ClientAllocations.Signal" (signal_args "abc123" "{SIGHUP}")]).
Proof. reflexivity. Qed.

Lemma stats_without_route :
  @ClientAllocRequest structs (agent stranded)
    (request "GET" "/v1/client/allocation/unknown-id/stats" "") empty_heap
  = Some ((usage None, Some (coded 400 "No local Node and node_id not provided")),
          empty_heap, [EvRpcHandlerForAlloc "unknown-id" (false, false, false)]).
Proof. reflexivity. Qed.

Lemma gc_of_an_unreachable_node :
  @ClientGCRequest structs (agent (failing NoNodeConn))
    (request_with {[ "node_id" := ["node1"] ]} "GET" "/v1/client/gc") empty_heap
  = Some ((no_value, Some (coded 404 "No path to node")), empty_heap,
          [EvRpcHandlerForNode "node1" (false, true, false);
           EvRPC Client_RPC "ClientAllocations.GarbageCollectAll"
             (ArgsNodeSpecific (@Build_NodeSpecificRequest structs "node1" ""))]).
Proof. vm_compute. reflexivity. Qed.

Lemma stop_by_GET_is_refused :
  @AllocSpecificRequest_handler structs (agent healthy)
    (request "GET" "/v1/allocation/a1/stop" "") empty_heap
  = Some ((no_value, Some (coded 405 "Invalid method")), empty_heap, []).
Proof. reflexivity. Qed.

Lemma unknown_action_is_not_found :
  @AllocSpecificRequest_handler structs (agent healthy)
    (request "GET" "/v1/allocation/a1/logs" "") empty_heap
  = Some ((no_value, Some (coded 404 "resource not found")), empty_heap, []) ∧
  @ClientAllocRequest structs (agent healthy)
    (request "GET" "/v1/client/allocation/a1" "") empty_heap
  = Some ((no_value, Some (coded 404 "resource not found")), empty_heap, []).
Proof. split; reflexivity. Qed.

(** *** The further properties on the sample agent *)

Lemma client_paths_reach_their_handler_witness :
  @ClientAllocRequest structs (agent healthy)
    (request "PUT" "/v1/client/allocation/a1/gc" "")
  = @allocGC structs (agent healthy) "a1" (request "PUT" "/v1/client/allocation/a1/gc" "").
Proof.
  apply (proj1 (proj2 (proj2
           (@client_paths_reach_their_handler structs (agent healthy) "a1" "gc"
              (request "PUT" "/v1/client/allocation/a1/gc" "") eq_refl eq_refl)))).
  reflexivity.
Defined.

Lemma client_paths_not_found_witness :
  @ClientAllocRequest structs (agent healthy)
    (request "GET" "/v1/client/allocation/a1/stats/cpu" "") empty_heap
  = Some ((no_value, Some (coded 404 "resource not found")), empty_heap, []).
Proof.
  apply (@client_paths_not_found structs (agent healthy) "a1/stats/cpu"
           (request "GET" "/v1/client/allocation/a1/stats/cpu" "") empty_heap).
  - reflexivity.
  - left. discriminate.
Defined.

Lemma alloc_paths_reach_their_handler_witness :
  @AllocSpecificRequest_handler structs (agent healthy)
    (request "PUT" "/v1/allocation/a1/stop" "")
  = @allocStop structs (agent healthy) "a1" (request "PUT" "/v1/allocation/a1/stop" "").
Proof.
  apply (proj2 (@alloc_paths_reach_their_handler structs (agent healthy) "a1"
                  (request "PUT" "/v1/allocation/a1/stop" "") eq_refl)).
  reflexivity.
Defined.

Lemma alloc_paths_not_found_witness :
  @AllocSpecificRequest_handler structs (agent healthy)
    (request "GET" "/v1/allocation/a1/logs" "") empty_heap
  = Some ((no_value, Some (coded 404 "resource not found")), empty_heap, []).
Proof.
  apply (@alloc_paths_not_found structs (agent healthy) "a1/logs"
           (request "GET" "/v1/allocation/a1/logs" "") empty_heap).
  - reflexivity.
  - right. exists "a1", "logs". repeat split. discriminate.
Defined.

Lemma snapshot_needs_a_client_witness :
  @ClientAllocRequest structs (agent_with false false decode_payload healthy)
    (request "GET" "/v1/client/allocation/a1/snapshot" "") empty_heap
  = Some ((no_value, Some (failed ClientNotRunning)), empty_heap, []).
Proof.
  apply (@snapshot_needs_a_client structs (agent_with false false decode_payload healthy)
           "a1" (request "GET" "/v1/client/allocation/a1/snapshot" "") empty_heap);
    reflexivity.
Defined.

(** With every flag set the local client is the one that is called. *)
Lemma verbs_call_the_selected_transport_witness :
  (length (List.filter is_rpc
     [EvRpcHandlerForAlloc "a1" (true, true, true);
      EvRPC Client_ClientRPC "Allocations.Signal" (signal_args "a1" "{HUP}")]) ≤ 1)%nat ∧
  ∀ (t : Transport) (method : string) (args : RPCArgs),
    EvRPC t method args
    ∈ [EvRpcHandlerForAlloc "a1" (true, true, true);
       EvRPC Client_ClientRPC "Allocations.Signal" (signal_args "a1" "{HUP}")] →
    selected OpSignal
      (@verb_route structs (agent everywhere) OpSignal "a1"
         (request "POST" "/v1/client/allocation/a1/signal" "{HUP}"))
    = Some (t, method).
Proof.
  apply (@verbs_call_the_selected_transport structs (agent everywhere) OpSignal "a1"
           (request "POST" "/v1/client/allocation/a1/signal" "{HUP}")
           empty_heap empty_heap (ack 0, None)).
  reflexivity.
Defined.

(** GarbageCollectAll does not recognise "unknown allocation": the error
    comes back as it is. *)
Lemma verbs_keep_the_error_message_witness :
  match @backend_error structs (agent (failing UnknownAllocation)) OpGarbageCollectAll
          Client_RPC "ClientAllocations.GarbageCollectAll" gc_args empty_heap with
  | None => (no_value, Some (failed UnknownAllocation)).2 = None
  | Some e =>
    ∃ e' : error,
      (no_value, Some (failed UnknownAllocation)).2 = Some e' ∧
      Error e' = Error e ∧
      (@recognised structs (agent (failing UnknownAllocation)) OpGarbageCollectAll e = false →
       e' = e)
  end.
Proof.
  apply (@verbs_keep_the_error_message structs (agent (failing UnknownAllocation))
           OpGarbageCollectAll "" gc_request empty_heap empty_heap
           (no_value, Some (failed UnknownAllocation))
           [EvRpcHandlerForNode "" (false, true, false);
            EvRPC Client_RPC "ClientAllocations.GarbageCollectAll" gc_args]
           Client_RPC "ClientAllocations.GarbageCollectAll" gc_args).
  - reflexivity.
  - apply list_elem_of_further, list_elem_of_here.
Defined.

Lemma verbs_return_the_reply_witness :
  (usage (Some 42%nat), @None (@error structs)).1
  = @reply_value structs (agent healthy) OpStats Client_ClientRPC "Allocations.Stats"
      (stats_args "a1") empty_heap ∧
  empty_heap
  = @reply_heap structs (agent healthy) OpStats Client_ClientRPC "Allocations.Stats"
      (stats_args "a1") empty_heap.
Proof.
  apply (@verbs_return_the_reply structs (agent healthy) OpStats "a1"
           (request "GET" "/v1/client/allocation/a1/stats" "") empty_heap empty_heap
           (usage (Some 42%nat), None)
           [EvRpcHandlerForAlloc "a1" (true, false, false);
            EvRPC Client_ClientRPC "Allocations.Stats" (stats_args "a1")]
           Client_ClientRPC "Allocations.Stats" (stats_args "a1")).
  - reflexivity.
  - apply list_elem_of_further, list_elem_of_here.
Defined.

Lemma signal_body_must_decode_witness :
  @allocSignal structs (agent healthy) "a1"
    (request "POST" "/v1/client/allocation/a1/signal" "") empty_heap
  = Some ((no_value, Some (coded 400 "Failed to decode body: EOF")), empty_heap, []).
Proof.
  apply (@signal_body_must_decode structs (agent healthy) "a1"
           (request "POST" "/v1/client/allocation/a1/signal" "") empty_heap
           (@Build_AllocSignalRequest structs "" "" "") (failed EOF)).
  - left. reflexivity.
  - reflexivity.
Defined.

Lemma restart_sends_the_decoded_task_witness :
  restart_args "a1" = ArgsAllocRestart (@Build_AllocRestartRequest structs "a1" "" "").
Proof.
  apply (@restart_sends_the_decoded_task structs (agent healthy) "a1"
           (request "PUT" "/v1/client/allocation/a1/restart" "{}") empty_heap empty_heap
           (ack 0, None)
           [EvRpcHandlerForAlloc "a1" (true, false, false);
            EvRPC Client_ClientRPC "Allocations.Restart" (restart_args "a1")]
           Client_ClientRPC "Allocations.Restart" (restart_args "a1") "").
  - reflexivity.
  - reflexivity.
  - apply list_elem_of_further, list_elem_of_here.
Defined.

Lemma signal_sends_the_decoded_fields_witness :
  signal_args "a1" "{HUP}"
  = ArgsAllocSignal (@Build_AllocSignalRequest structs "a1" "{HUP}" "").
Proof.
  apply (@signal_sends_the_decoded_fields structs (agent healthy) "a1"
           (request "POST" "/v1/client/allocation/a1/signal" "{HUP}") empty_heap empty_heap
           (ack 0, None)
           [EvRpcHandlerForAlloc "a1" (true, false, false);
            EvRPC Client_ClientRPC "Allocations.Signal" (signal_args "a1" "{HUP}")]
           Client_ClientRPC "Allocations.Signal" (signal_args "a1" "{HUP}")
           (@Build_AllocSignalRequest structs "other-alloc" "{HUP}" "")).
  - reflexivity.
  - reflexivity.
  - apply list_elem_of_further, list_elem_of_here.
Defined.

Lemma gc_all_goes_by_the_query_witness :
  ∃ node : string,
    (URLQuery (request_with {[ "node_id" := ["node1"] ]} "PUT" "/v1/client/gc") !! "node_id"
     = None → node = "") ∧
    (∀ (x : string) (xs : list string),
       URLQuery (request_with {[ "node_id" := ["node1"] ]} "PUT" "/v1/client/gc") !! "node_id"
       = Some (x :: xs) → node = x) ∧
    head [EvRpcHandlerForNode "node1" (true, false, false);
          EvRPC Client_ClientRPC "Allocations.GarbageCollectAll"
            (ArgsNodeSpecific (@Build_NodeSpecificRequest structs "node1" ""))]
    = Some (EvRpcHandlerForNode node (@rpcHandlerForNode structs (agent healthy) node)) ∧
    ∀ (t : Transport) (method : string) (args : RPCArgs),
      EvRPC t method args
      ∈ [EvRpcHandlerForNode "node1" (true, false, false);
         EvRPC Client_ClientRPC "Allocations.GarbageCollectAll"
           (ArgsNodeSpecific (@Build_NodeSpecificRequest structs "node1" ""))] →
      args = ArgsNodeSpecific
               {| Node_NodeID := node;
                  Node_QueryOptions :=
                    (@parse structs (agent healthy)
                       (request_with {[ "node_id" := ["node1"] ]} "PUT" "/v1/client/gc")
                       zeroQueryOptions).1 |}.
Proof.
  apply (@gc_all_goes_by_the_query structs (agent healthy)
           (request_with {[ "node_id" := ["node1"] ]} "PUT" "/v1/client/gc")
           empty_heap empty_heap (no_value, None)).
  vm_compute. reflexivity.
Defined.

Lemma stats_filters_by_the_query_witness :
  ∃ task : string,
    (URLQuery (request_with {[ "task" := ["web"] ]} "GET" "/v1/client/allocation/a1/stats")
       !! "task" = None → task = "") ∧
    (∀ (x : string) (xs : list string),
       URLQuery (request_with {[ "task" := ["web"] ]} "GET" "/v1/client/allocation/a1/stats")
         !! "task" = Some (x :: xs) → task = x) ∧
    ArgsAllocStats (@Build_AllocStatsRequest structs "a1" "web" "")
    = ArgsAllocStats
        {| Stats_AllocID := "a1";
           Stats_Task := task;
           Stats_QueryOptions :=
             (@parse structs (agent healthy)
                (request_with {[ "task" := ["web"] ]} "GET" "/v1/client/allocation/a1/stats")
                zeroQueryOptions).1 |}.
Proof.
  apply (@stats_filters_by_the_query structs (agent healthy) "a1"
           (request_with {[ "task" := ["web"] ]} "GET" "/v1/client/allocation/a1/stats")
           empty_heap empty_heap (usage (Some 42%nat), None)
           [EvRpcHandlerForAlloc "a1" (true, false, false);
            EvRPC Client_ClientRPC "Allocations.Stats"
              (ArgsAllocStats (@Build_AllocStatsRequest structs "a1" "web" ""))]
           Client_ClientRPC "Allocations.Stats").
  - vm_compute. reflexivity.
  - apply list_elem_of_further, list_elem_of_here.
Defined.

(** The servers do not know the node: Stop hands the error back as it is. *)
Lemma stop_goes_through_the_agent_witness :
  @allocStop structs (agent (failing NoNodeConn)) "a1"
    (request "PUT" "/v1/allocation/a1/stop" "") empty_heap
  = Some ((@VAllocStopResponse structs 0%nat, Some (failed NoNodeConn)), empty_heap,
          [EvRPC Agent_RPC "Alloc.Stop"
             (ArgsAllocStop (@Build_AllocStopRequest structs "a1" ""))]).
Proof.
  apply (@stop_goes_through_the_agent structs (agent (failing NoNodeConn)) "a1"
           (request "PUT" "/v1/allocation/a1/stop" "") empty_heap empty_heap
           0%nat (Some (failed NoNodeConn))).
  - right. reflexivity.
  - reflexivity.
Defined.

Lemma parse_can_end_the_request_witness :
  @AllocsRequest structs (agent_with true true decode_payload healthy)
    (request "GET" "/v1/allocations" "") empty_heap
  = Some ((no_value, None), empty_heap, []) ∧
  @allocGet structs (agent_with true true decode_payload healthy) "a1"
    (request "GET" "/v1/allocations" "") empty_heap
  = Some ((no_value, None), empty_heap, []).
Proof.
  apply (@parse_can_end_the_request structs (agent_with true true decode_payload healthy)
           "a1" (request "GET" "/v1/allocations" "") empty_heap);
    reflexivity.
Defined.

Lemma list_and_get_pass_rpc_errors_witness :
  @allocGet structs (agent (failing NoNodeConn)) "a1"
    (request "GET" "/v1/allocation/a1" "") empty_heap
  = Some ((no_value, Some (failed NoNodeConn)), empty_heap,
          [EvRPC Agent_RPC "Alloc.GetAlloc" (get_args "a1")]).
Proof.
  apply (proj2 (@list_and_get_pass_rpc_errors structs (agent (failing NoNodeConn)) "a1"
                  (request "GET" "/v1/allocation/a1" "") empty_heap eq_refl eq_refl)
           empty_heap (@Build_SingleAllocResponse structs None 0%nat) (failed NoNodeConn)).
  reflexivity.
Defined.

Lemma get_of_a_missing_allocation_witness :
  @allocGet structs (agent healthy) "a1" (request "GET" "/v1/allocation/a1" "") empty_heap
  = Some ((no_value, Some (coded 404 "alloc not found")), empty_heap,
          @GetAlloc_trace structs (agent healthy) "a1"
            (request "GET" "/v1/allocation/a1" "")
            (@Build_SingleAllocResponse structs None 7%nat)).
Proof.
  apply (@get_of_a_missing_allocation structs (agent healthy) "a1"
           (request "GET" "/v1/allocation/a1" "") empty_heap empty_heap
           (@Build_SingleAllocResponse structs None 7%nat)).
  - repeat split.
  - reflexivity.
Defined.

Lemma get_of_a_corrupt_payload_witness :
  @allocGet structs (agent_with true false refuse_payload (finding 1%positive)) "a1"
    (request "GET" "/v1/allocation/a1" "") stored_heap
  = Some ((no_value, Some (failed Corrupt)), stored_heap,
          @GetAlloc_trace structs (agent_with true false refuse_payload (finding 1%positive))
            "a1" (request "GET" "/v1/allocation/a1" "") (get_reply 1%positive)
          ++ [EvSnappyDecode [Byte.x02; Byte.x68; Byte.x69]]).
Proof.
  apply (@get_of_a_corrupt_payload structs
           (agent_with true false refuse_payload (finding 1%positive)) "a1"
           (request "GET" "/v1/allocation/a1" "") stored_heap stored_heap
           (get_reply 1%positive) 1%positive 1%positive (alloc_of_job 1%positive)
           {| Payload := [Byte.x02; Byte.x68; Byte.x69] |} [] (failed Corrupt)).
  - repeat split.
  - reflexivity.
  - reflexivity.
  - reflexivity.
  - reflexivity.
  - discriminate.
  - reflexivity.
Defined.

(** A Get that copies: allocation 1, its job and the stub are as before. *)
Lemma get_writes_only_what_it_returns_witness :
  ∃ (r : Value * option error) (h2 : Heap) (tr : list Event),
    @allocGet structs (agent (finding 1%positive)) "a1"
      (request "GET" "/v1/allocation/a1" "") stored_heap = Some (r, h2, tr) ∧
    jobs stored_heap ⊆ jobs h2 ∧
    stubs h2 = stubs stored_heap ∧
    ∀ (q : loc) (a : Allocation),
      r.1 ≠ VAlloc q → allocs stored_heap !! q = Some a → allocs h2 !! q = Some a.
Proof.
  do 3 eexists. split; [vm_compute; reflexivity|].
  eapply (@get_writes_only_what_it_returns structs (agent (finding 1%positive)) "a1"
           (request "GET" "/v1/allocation/a1" "") stored_heap stored_heap _
           (get_reply 1%positive) None _ _).
  - reflexivity.
  - reflexivity.
  - reflexivity.
  - vm_compute. reflexivity.
Defined.

Lemma list_writes_only_the_listed_stubs_witness :
  ∃ (r : Value * option error) (h2 : Heap) (tr : list Event),
    @AllocsRequest structs (agent (listing (Some [Some 5%positive])))
      (request "GET" "/v1/allocations" "") stored_heap = Some (r, h2, tr) ∧
    r = (VAllocStubs (Some (elems (Allocations (list_reply (Some [Some 5%positive]))))),
         None) ∧
    tr = @List_trace structs (agent (listing (Some [Some 5%positive])))
           (request "GET" "/v1/allocations" "") (list_reply (Some [Some 5%positive])) ∧
    allocs h2 = allocs stored_heap ∧ jobs h2 = jobs stored_heap ∧
    ∀ q : loc,
      Some q ∉ elems (Allocations (list_reply (Some [Some 5%positive]))) →
      stubs h2 !! q = stubs stored_heap !! q.
Proof.
  do 3 eexists. split; [vm_compute; reflexivity|].
  eapply (@list_writes_only_the_listed_stubs structs
           (agent (listing (Some [Some 5%positive])))
           (request "GET" "/v1/allocations" "") stored_heap stored_heap _
           (list_reply (Some [Some 5%positive])) _ _).
  - repeat split.
  - vm_compute. reflexivity.
Defined.

Lemma snapshot_is_local_witness :
  (no_value, @None (@error structs)).1 = VNil ∧ empty_heap = empty_heap ∧
  head [EvValidateMigrateToken "a1" ""; EvGetAllocFS "a1"; @EvSnapshot structs "a1"]
  = Some (EvValidateMigrateToken "a1"
            (@parseToken structs (agent healthy)
               (request "GET" "/v1/client/allocation/a1/snapshot" "") "")) ∧
  (∀ ev : Event,
     ev ∈ [EvValidateMigrateToken "a1" ""; EvGetAllocFS "a1"; @EvSnapshot structs "a1"] →
     is_rpc ev = false ∧ is_routing ev = false) ∧
  (EvGetAllocFS "a1"
   ∈ [EvValidateMigrateToken "a1" ""; EvGetAllocFS "a1"; @EvSnapshot structs "a1"] →
   @ValidateMigrateToken structs (agent healthy) "a1"
     (@parseToken structs (agent healthy)
        (request "GET" "/v1/client/allocation/a1/snapshot" "") "") = true) ∧
  (∀ fs : AllocFS,
     EvSnapshot fs
     ∈ [EvValidateMigrateToken "a1" ""; EvGetAllocFS "a1"; @EvSnapshot structs "a1"] →
     @ValidateMigrateToken structs (agent healthy) "a1"
       (@parseToken structs (agent healthy)
          (request "GET" "/v1/client/allocation/a1/snapshot" "") "") = true ∧
     @GetAllocFS structs (agent healthy) "a1" = (Some fs, None)).
Proof.
  apply (@snapshot_is_local structs (agent healthy) "a1"
           (request "GET" "/v1/client/allocation/a1/snapshot" "") empty_heap empty_heap
           (no_value, None)
           [EvValidateMigrateToken "a1" ""; EvGetAllocFS "a1"; @EvSnapshot structs "a1"]).
  reflexivity.
Defined.

Lemma snapshot_streams_witness :
  @allocSnapshot structs (agent healthy) "a1"
    (request "GET" "/v1/client/allocation/a1/snapshot" "") empty_heap
  = Some ((no_value, None), empty_heap,
          [EvValidateMigrateToken "a1" ""; EvGetAllocFS "a1"; @EvSnapshot structs "a1"]).
Proof.
  apply (@snapshot_streams structs (agent healthy) "a1"
           (request "GET" "/v1/client/allocation/a1/snapshot" "") empty_heap "a1");
    reflexivity.
Defined.

Lemma checked_methods_witness :
  @allocStop structs (agent healthy) "a1" (request "DELETE" "/v1/allocation/a1/stop" "")
    empty_heap
  = Some ((no_value, Some (coded 405 "Invalid method")), empty_heap, []) ∧
  @allocSignal structs (agent healthy) "a1"
    (request "DELETE" "/v1/allocation/a1/stop" "") empty_heap
  = Some ((no_value, Some (coded 405 "Invalid method")), empty_heap, []).
Proof.
  apply (proj2 (@checked_methods structs (agent healthy) "a1"
                  (request "DELETE" "/v1/allocation/a1/stop" "") empty_heap));
    discriminate.
Defined.
